(** * GreenHydro: hexagon grid generation and LCOH scoring

    A shallow embedding of the numeric core of the repository:

    - [Scripts/create_india_hexagons.py]  (module [Generator])
    - [Scripts/fix_hexagons.py]           (module [FixHexagons])
    - [Scripts/calculate_india_lcoh.py]   (module [Scorer])

    Numeric model.  Python's [float] is embedded as the exact rationals [Q]:
    every arithmetic operation is the exact one and [round(x, n)] is exact
    round-half-to-even at [n] decimals.  The binary64 rounding error of the
    individual operations (about 1e-16 relative) is not modelled; statements
    about numeric values are therefore written with [==] on [Q] or as explicit
    rational bounds.  [float('inf')] is kept as a separate constructor.
    Both Python's [round] on a [float] and NumPy's on a [float64] are
    round-half-to-even in this model.  The only divisions by a value that is
    not a non-zero literal are the two by [np.cos(...)], in [create_hexagon]
    and in the longitude step; where a statement depends on that cosine it
    assumes it positive.

    NumPy's transcendental kernels ([cos], [sin], [sqrt], the constant [pi])
    and shapely's polygon predicate are external to the repository; they are
    interfaces (type classes) of the development, and every theorem holds for
    all their implementations unless a hypothesis says otherwise. *)

From Stdlib Require Import QArith Qround Qabs Qminmax Qreduction Lqa.
From Stdlib Require Import ZArith Lia List String Ascii Bool FinFun.
From Stdlib Require DecimalString.
Import ListNotations.

Open Scope Q_scope.

(* ================================================================= *)
(** * Python numbers *)

Module PyNum.

(** Comparison operators of Python on floats, as booleans. *)
Definition Qleb (a b : Q) : bool := Qle_bool a b.
Definition Qltb (a b : Q) : bool := negb (Qle_bool b a).
Definition Qgeb (a b : Q) : bool := Qle_bool b a.
Definition Qgtb (a b : Q) : bool := negb (Qle_bool a b).

(** Round half to even, to an integer. *)
Definition round_half_even (x : Q) : Z :=
  let f := Qfloor x in
  match Qcompare (x - inject_Z f) (1 # 2) with
  | Lt => f
  | Gt => (f + 1)%Z
  | Eq => if Z.even f then f else (f + 1)%Z
  end.

(** [round(x, ndigits)] of Python for a float [x]. *)
Definition py_round (x : Q) (ndigits : Z) : Q :=
  let p := 10 ^ ndigits in
  Qred (inject_Z (round_half_even (x * p)) / p).

(** [float('inf')] and the finite floats. *)
Inductive efloat : Type :=
| Finite (q : Q)
| Infinity.

(** [min(a, b)] where [a] may be [float('inf')] and [b] is finite. *)
Definition py_min (a : efloat) (b : Q) : efloat :=
  match a with
  | Infinity => Finite b
  | Finite x => Finite (Qmin x b)
  end.

(** [a < c] where [a] may be [float('inf')]. *)
Definition eltb (a : efloat) (c : Q) : bool :=
  match a with
  | Infinity => false
  | Finite x => Qltb x c
  end.

(** The finite value of a float known not to be [float('inf')]; the
    [Infinity] branch is unreachable at every use below (the reference
    tables are non-empty literals, see [transport_min_distance_finite]). *)
Definition finite_value (a : efloat) : Q :=
  match a with
  | Finite x => x
  | Infinity => 0
  end.

(** [str(n)] for a non-negative integer. *)
Definition str_of_nat (n : nat) : string :=
  DecimalString.NilEmpty.string_of_uint (Nat.to_uint n).

End PyNum.
Import PyNum.

(* ================================================================= *)
(** * External numeric kernel (NumPy) *)

Class NumPy : Type := {
  np_pi   : Q;
  np_cos  : Q -> Q;
  np_sin  : Q -> Q;
  np_sqrt : Q -> Q
}.

(** [np.radians] *)
Definition np_radians `{NumPy} (deg : Q) : Q := deg * np_pi / 180.

(** Exceptions that the modelled code can raise. *)
Inductive exn : Type :=
| ValueError (msg : string)
| GeometryException (msg : string).

(** [np.arange(start, stop, step)] on floats: [ceil((stop - start) / step)]
    elements [start + i * step]; a zero step raises.

    The quotient is taken here on exact rationals.  NumPy takes it in
    binary64, so where the exact quotient is an integer, or within rounding
    of one, the real range can be one element longer or shorter than this
    one, and the real elements carry the rounding of [start + i * step].
    Statements on the number of rows or on the last element are therefore
    made with room for one more step, and for resolutions where the ranges
    are neither absorbed by rounding nor too long to be allocated. *)
Definition np_arange (start stop step : Q) : exn + list Q :=
  if Qeq_bool step 0 then inl (ValueError "Maximum allowed size exceeded")
  else
    let n := Z.to_nat (Qceiling ((stop - start) / step)) in
    inr (map (fun i => Qred (start + inject_Z (Z.of_nat i) * step)) (seq 0 n)).

(** [np.linspace(start, stop, num)] with the end point included, [num >= 2]. *)
Definition np_linspace (start stop : Q) (num : nat) : list Q :=
  let step := (stop - start) / inject_Z (Z.of_nat (num - 1)) in
  map (fun i => start + inject_Z (Z.of_nat i) * step) (seq 0 num).

(* ================================================================= *)
(** * The GeoJSON feature produced by the generator *)

Definition coord : Type := (Q * Q)%type.          (* [lon, lat] *)

Record Properties : Type := mkProperties {
  hex_id : Z;
  center_lat : Q;
  center_lon : Q;
  wind_potential : Q;
  solar_potential : Q;
  water_availability : string;
  infrastructure_score : Z;
  region : string;
  climate_zone : string;
  elevation : Z;
  population_density : string
}.

Record Geometry : Type := mkGeometry {
  geometry_type : string;
  coordinates : list (list coord)
}.

Record Feature : Type := mkFeature {
  feature_type : string;
  properties : Properties;
  geometry : Geometry
}.

(* ================================================================= *)
(** * Scripts/calculate_india_lcoh.py *)

Module Scorer.

Record LcohData : Type := mkLcohData {
  total_lcoh : Q;
  wind_cost : Q;
  solar_cost : Q;
  water_cost : Q;
  infrastructure_cost : Q;
  electrolyzer_cost : Q;
  transport_cost : Q;
  suitability_score : Q
}.

Definition calculate_wind_energy_cost (wind_potential : Q) (elevation : Z) : Q :=
  let capacity_factor :=
    if Qgeb wind_potential 6.0 then 0.35
    else if Qgeb wind_potential 5.0 then 0.28
    else if Qgeb wind_potential 4.0 then 0.20
    else 0.12 in
  let base_cost := 45.0 in
  let adjusted_cost := base_cost / capacity_factor in
  let elevation_factor := 1.0 + (inject_Z elevation / 1000.0) * 0.1 in
  adjusted_cost * elevation_factor.

Definition calculate_solar_energy_cost (solar_potential : Q) : Q :=
  let capacity_factor :=
    if Qgeb solar_potential 6.0 then 0.22
    else if Qgeb solar_potential 5.5 then 0.20
    else if Qgeb solar_potential 5.0 then 0.18
    else 0.15 in
  let base_cost := 35.0 in
  let adjusted_cost := base_cost / capacity_factor in
  adjusted_cost.

Definition calculate_water_cost (water_availability : string) : Q :=
  if String.eqb water_availability "High" then 0.5
  else if String.eqb water_availability "Medium" then 1.2
  else 2.5.

Definition calculate_infrastructure_cost (infrastructure_score : Z) : Q :=
  if (infrastructure_score >=? 80)%Z then 0.3
  else if (infrastructure_score >=? 60)%Z then 0.6
  else if (infrastructure_score >=? 40)%Z then 1.0
  else 1.8.

Definition calculate_electrolyzer_cost : Q := 1.2.

Definition demand_centers : list (Q * Q * string) :=
  [ (19.0760, 72.8777, "Mumbai"%string);
    (28.7041, 77.1025, "Delhi"%string);
    (12.9716, 77.5946, "Bangalore"%string);
    (13.0827, 80.2707, "Chennai"%string);
    (22.5726, 88.3639, "Kolkata"%string) ].

Section WithNumPy.
Context `{NumPy}.

(** The loop of [calculate_transport_cost]: the running minimum. *)
Definition transport_min_distance (lat lon : Q) : efloat :=
  fold_left
    (fun min_distance '(center_lat, center_lon, _) =>
       let distance :=
         np_sqrt ((lat - center_lat) ^ 2 + (lon - center_lon) ^ 2) * 111.0 in
       py_min min_distance distance)
    demand_centers Infinity.

Definition calculate_transport_cost (lat lon : Q) : Q :=
  let min_distance := transport_min_distance lat lon in
  let transport_rate := 0.15 in
  (finite_value min_distance / 100.0) * transport_rate.

Definition calculate_suitability_score (lcoh wind_potential solar_potential : Q) : Q :=
  let lcoh_score : Q :=
    if Qleb lcoh 3.0 then 100
    else if Qleb lcoh 4.0 then 85
    else if Qleb lcoh 5.0 then 70
    else if Qleb lcoh 6.0 then 55
    else 40 in
  let renewable_score := (wind_potential / 7.0 + solar_potential / 6.5) * 50 in
  let suitability := lcoh_score * 0.6 + renewable_score * 0.4 in
  py_round suitability 1.

(** The local [total_lcoh] of [calculate_lcoh_for_hexagon], before it is
    rounded for storage. *)
Definition unrounded_total_lcoh (props : Properties) : Q :=
  let wind_cost :=
    calculate_wind_energy_cost (wind_potential props) (elevation props) in
  let solar_cost := calculate_solar_energy_cost (solar_potential props) in
  let water_cost := calculate_water_cost (water_availability props) in
  let infrastructure_cost :=
    calculate_infrastructure_cost (infrastructure_score props) in
  let electrolyzer_cost := calculate_electrolyzer_cost in
  let transport_cost :=
    calculate_transport_cost (center_lat props) (center_lon props) in
  wind_cost * 0.4 + solar_cost * 0.6 + water_cost + infrastructure_cost
  + electrolyzer_cost + transport_cost.

Definition calculate_lcoh_for_hexagon (hexagon : Feature) : LcohData :=
  let props := properties hexagon in
  let wind_potential := wind_potential props in
  let solar_potential := solar_potential props in
  let water_availability := water_availability props in
  let infrastructure_score := infrastructure_score props in
  let elevation := elevation props in
  let wind_cost := calculate_wind_energy_cost wind_potential elevation in
  let solar_cost := calculate_solar_energy_cost solar_potential in
  let water_cost := calculate_water_cost water_availability in
  let infrastructure_cost := calculate_infrastructure_cost infrastructure_score in
  let electrolyzer_cost := calculate_electrolyzer_cost in
  let transport_cost :=
    calculate_transport_cost (center_lat props) (center_lon props) in
  let total_lcoh :=
    wind_cost * 0.4 + solar_cost * 0.6 + water_cost + infrastructure_cost
    + electrolyzer_cost + transport_cost in
  {| total_lcoh := py_round total_lcoh 2;
     wind_cost := py_round wind_cost 2;
     solar_cost := py_round solar_cost 2;
     water_cost := py_round water_cost 2;
     infrastructure_cost := py_round infrastructure_cost 2;
     electrolyzer_cost := py_round electrolyzer_cost 2;
     transport_cost := py_round transport_cost 2;
     suitability_score :=
       calculate_suitability_score total_lcoh wind_potential solar_potential |}.

Definition categorize_suitability (suitability_score : Q) : string :=
  if Qgeb suitability_score 80 then "Most Suitable"
  else if Qgeb suitability_score 60 then "Moderately Suitable"
  else if Qgeb suitability_score 40 then "Less Suitable"
  else "Unsuitable".

End WithNumPy.

End Scorer.

(* ================================================================= *)
(** * Effects: standard output, the NumPy random generator, exceptions *)

Module PyMonad.

(** What a script can observe or change outside its own variables: the
    lines printed so far and the state of NumPy's global random generator
    (the stream of its future draws and how many were consumed). *)
Record World : Type := mkWorld {
  stdout : list string;
  rng_stream : nat -> Q;
  rng_drawn : nat
}.

Definition Py (A : Type) : Type := World -> (exn + A) * World.

Definition ret {A} (a : A) : Py A := fun w => (inr a, w).

Definition bind {A B} (c : Py A) (k : A -> Py B) : Py B :=
  fun w =>
    match c w with
    | (inl e, w') => (inl e, w')
    | (inr a, w') => k a w'
    end.

Definition raise {A} (e : exn) : Py A := fun w => (inl e, w).

(** A call into a library function that may raise. *)
Definition call {A} (r : exn + A) : Py A := fun w => (r, w).

(** [print(line)] *)
Definition print (line : string) : Py unit :=
  fun w => (inr tt, {| stdout := stdout w ++ [line];
                       rng_stream := rng_stream w;
                       rng_drawn := rng_drawn w |}).

(** [np.random.random()] *)
Definition np_random_random : Py Q :=
  fun w => (inr (rng_stream w (rng_drawn w)),
            {| stdout := stdout w;
               rng_stream := rng_stream w;
               rng_drawn := S (rng_drawn w) |}).

(** [try: body except Exception as e: handler(e)] *)
Definition try_except {A} (body : Py A) (handler : exn -> Py A) : Py A :=
  fun w =>
    match body w with
    | (inl e, w') => handler e w'
    | (inr a, w') => (inr a, w')
    end.

(** A [for] loop whose body has effects, threading the loop variables. *)
Fixpoint for_each {A S} (xs : list A) (body : S -> A -> Py S) (s : S) : Py S :=
  match xs with
  | [] => ret s
  | x :: xs' => bind (body s x) (for_each xs' body)
  end.

Definition result {A} (c : Py A) (w : World) : exn + A := fst (c w).

End PyMonad.
Import PyMonad.

Notation "x <- c1 ;; c2" := (bind c1 (fun x => c2))
  (at level 61, c1 at next level, right associativity).
Notation "c1 ;; c2" := (bind c1 (fun _ => c2))
  (at level 61, right associativity).

(* ================================================================= *)
(** * Scripts/create_india_hexagons.py *)

Module Generator.

(** Python's [min(x, *xs)]: the first smallest argument. *)
Definition py_min_of (x : Q) (xs : list Q) : Q := fold_left Qmin xs x.

Definition calculate_wind_potential (lat lon : Q) : Q :=
  let coastal_distance :=
    py_min_of (Qabs (lat - 8.0))
              [ Qabs (lat - 22.0); Qabs (lat - 12.0);
                Qabs (lon - 72.0); Qabs (lon - 80.0) ] in
  let base_wind :=
    if Qltb coastal_distance 2.0 then 6.5
    else if Qltb coastal_distance 5.0 then 5.5
    else 4.0 in
  let monsoon_factor := if Qgtb lat 15 && Qltb lat 25 then 1.2 else 1.0 in
  let terrain_factor := if Qgtb lat 20 && Qltb lat 30 then 1.1 else 1.0 in
  py_round (base_wind * monsoon_factor * terrain_factor) 2.

Definition calculate_water_availability (lat lon : Q) : string :=
  if Qgtb lat 20 && Qltb lat 30 && Qgtb lon 70 && Qltb lon 85 then "High"
  else if Qgtb lat 10 && Qltb lat 20 && Qgtb lon 70 && Qltb lon 80 then "High"
  else if Qgtb lat 20 && Qltb lat 30 && Qgtb lon 85 && Qltb lon 95 then "High"
  else if Qgtb lat 15 && Qltb lat 25 && Qgtb lon 75 && Qltb lon 85 then "Medium"
  else "Low".

Definition get_india_region (lat lon : Q) : string :=
  if Qgtb lat 30 then "Northern Mountains"
  else if Qgtb lat 25 then "Northern Plains"
  else if Qgtb lat 20 then "Central India"
  else if Qgtb lat 15 then "Southern Plateau"
  else if Qgtb lat 10 then "Southern Coast"
  else "Islands".

Definition get_climate_zone (lat lon : Q) : string :=
  if Qgtb lat 25 && Qltb lon 80 then "Desert"
  else if Qgtb lat 20 && Qltb lat 25 then "Tropical Savanna"
  else if Qltb lat 20 then "Tropical Monsoon"
  else if Qgtb lat 25 && Qgtb lon 85 then "Subtropical Humid"
  else "Temperate".

Definition get_elevation_estimate (lat lon : Q) : Z :=
  if Qgtb lat 30 then 3000
  else if Qgtb lat 25 && Qltb lon 75 then 200
  else if Qltb lat 20 then 500
  else 100.

Definition major_cities : list (Q * Q) :=
  [ (19.0760, 72.8777); (28.7041, 77.1025); (12.9716, 77.5946);
    (13.0827, 80.2707); (22.5726, 88.3639); (17.3850, 78.4867);
    (23.0225, 72.5714); (26.8467, 80.9462); (25.2048, 55.2708) ].

Definition urban_centers : list (Q * Q) :=
  [ (19.0760, 72.8777); (28.7041, 77.1025); (12.9716, 77.5946);
    (13.0827, 80.2707); (22.5726, 88.3639) ].

Section WithNumPy.
Context `{NumPy}.

Definition create_hexagon (lat lon radius_deg : Q) : list coord :=
  let angles := removelast (np_linspace 0 (2 * np_pi) 7) in
  map (fun angle =>
         let lat_rad := np_radians lat in
         let lon_rad := np_radians lon in
         let new_lat := lat + radius_deg * np_cos angle in
         let new_lon := lon + radius_deg * np_sin angle / np_cos lat_rad in
         (new_lon, new_lat))
      angles.

Definition calculate_solar_potential (lat lon : Q) : Q :=
  let northwest_distance := np_sqrt ((lat - 28.0) ^ 2 + (lon - 75.0) ^ 2) in
  let base_solar :=
    if Qltb northwest_distance 5.0 then 6.2
    else if Qltb northwest_distance 10.0 then 5.8
    else 5.2 in
  let lat_factor := 1.0 + (25.0 - lat) * 0.02 in
  let climate_factor := if Qltb northwest_distance 8.0 then 1.1 else 1.0 in
  py_round (base_solar * lat_factor * climate_factor) 2.

Definition calculate_infrastructure_score (lat lon : Q) : Z :=
  let min_distance :=
    fold_left
      (fun min_distance '(city_lat, city_lon) =>
         let distance := np_sqrt ((lat - city_lat) ^ 2 + (lon - city_lon) ^ 2) in
         py_min min_distance distance)
      major_cities Infinity in
  if eltb min_distance 1.0 then 90
  else if eltb min_distance 3.0 then 75
  else if eltb min_distance 8.0 then 60
  else if eltb min_distance 15.0 then 40
  else 20.

Definition get_population_density (lat lon : Q) : string :=
  if existsb
       (fun '(city_lat, city_lon) =>
          Qltb (np_sqrt ((lat - city_lat) ^ 2 + (lon - city_lon) ^ 2)) 0.5)
       urban_centers
  then "Very High"
  else if Qgtb lat 20 && Qltb lat 30 && Qgtb lon 70 && Qltb lon 85 then "High"
  else if Qltb lat 20 then "Medium"
  else "Low".

(** The dictionary [hexagon_data] built by the loop body. *)
Definition hexagon_data (hex_id : Z) (lat lon lat_step : Q) : Feature :=
  let hex_coords := create_hexagon lat lon (lat_step / 2) in
  let center_lat := lat in
  let center_lon := lon in
  let wind_potential := calculate_wind_potential lat lon in
  let solar_potential := calculate_solar_potential lat lon in
  let water_availability := calculate_water_availability lat lon in
  let infrastructure_score := calculate_infrastructure_score lat lon in
  {| feature_type := "Feature";
     properties :=
       {| hex_id := hex_id;
          center_lat := center_lat;
          center_lon := center_lon;
          wind_potential := wind_potential;
          solar_potential := solar_potential;
          water_availability := water_availability;
          infrastructure_score := infrastructure_score;
          region := get_india_region lat lon;
          climate_zone := get_climate_zone lat lon;
          elevation := get_elevation_estimate lat lon;
          population_density := get_population_density lat lon |};
     geometry :=
       {| geometry_type := "Polygon";
          coordinates := [hex_coords] |} |}.

(** The two nested [for] loops; the loop variables are the list
    [hexagons] and the counter [hex_id]. *)
Definition grid_loop (lats lons : list Q) (lat_step : Q)
           (st : list Feature * Z) : list Feature * Z :=
  fold_left
    (fun st lat =>
       fold_left
         (fun '(hexagons, hex_id) lon =>
            (hexagons ++ [hexagon_data hex_id lat lon lat_step],
             (hex_id + 1)%Z))
         lons st)
    lats st.

Definition create_india_hexagons (resolution_km : Q) : Py (list Feature) :=
  print "Creating India hexagon grid..." ;;
  let lat_min := 6.0 in
  let lat_max := 37.0 in
  let lon_min := 68.0 in
  let lon_max := 97.0 in
  let lat_step := resolution_km / 111.0 in
  let lon_step :=
    resolution_km / (111.0 * np_cos (np_radians ((lat_min + lat_max) / 2))) in
  lats <- call (np_arange lat_min (lat_max + lat_step) lat_step) ;;
  lons <- call (np_arange lon_min (lon_max + lon_step) lon_step) ;;
  let '(hexagons, hex_id) := grid_loop lats lons lat_step ([], 0%Z) in
  print ("Created " ++ str_of_nat (List.length hexagons)
                    ++ " hexagons covering India")%string ;;
  ret hexagons.

End WithNumPy.

End Generator.

(* ================================================================= *)
(** * Scripts/fix_hexagons.py *)

(** shapely's [Polygon] constructor and its [is_valid] property. *)
Class Shapely : Type := {
  polygon : Type;
  Polygon : list coord -> exn + polygon;
  is_valid : polygon -> bool
}.

(** Python's formatting of a float and of an exception inside an f-string. *)
Class PyFormat : Type := {
  format_float : Q -> string;
  format_exn : exn -> string
}.

Module FixHexagons.

Record FixProperties : Type := mkFixProperties {
  id : string;
  lat : Q;
  lon : Q;
  hex_size : Q;
  lcoh : list (string * Q)      (* the keys added by [add_lcoh_data] *)
}.

Record FixFeature : Type := mkFixFeature {
  fix_type : string;
  fix_geometry : Geometry;
  fix_properties : FixProperties
}.

Record FeatureCollection : Type := mkFeatureCollection {
  collection_type : string;
  features : list FixFeature
}.

(** [a != b] on two-element lists of floats. *)
Definition coord_neqb (a b : coord) : bool :=
  negb (Qeq_bool (fst a) (fst b) && Qeq_bool (snd a) (snd b)).

(** [d[key] = value] on a dictionary kept in insertion order. *)
Fixpoint dict_set (d : list (string * Q)) (key : string) (value : Q)
  : list (string * Q) :=
  match d with
  | [] => [(key, value)]
  | (k, v) :: d' =>
      if String.eqb k key then (k, value) :: d'
      else (k, v) :: dict_set d' key value
  end.

Section WithLibraries.
Context `{NumPy} `{Shapely} `{PyFormat}.

(** The six corners and the closing step of the loop body. *)
Definition hex_ring (lat lon hex_size : Q) : list coord :=
  let hex_coords :=
    map (fun i =>
           let angle := inject_Z (Z.of_nat i) * 60 in
           let dx := hex_size * 0.5 * np_cos (np_radians angle) in
           let dy := hex_size * 0.5 * np_sin (np_radians angle) in
           (lon + dx, lat + dy))
        (seq 0 6) in
  if coord_neqb (hd (0, 0) hex_coords) (last hex_coords (0, 0))
  then hex_coords ++ [hd (0, 0) hex_coords]
  else hex_coords.

Definition valid_feature (hex_id : nat) (lat lon hex_size : Q)
           (hex_coords : list coord) : FixFeature :=
  {| fix_type := "Feature";
     fix_geometry := {| geometry_type := "Polygon";
                        coordinates := [hex_coords] |};
     fix_properties := {| id := "hex_" ++ str_of_nat hex_id;
                          lat := lat;
                          lon := lon;
                          hex_size := hex_size;
                          lcoh := [] |} |}.

(** One iteration of the inner loop: the [try] block with its handler.
    The loop variables are [hexagons] and [hex_id]. *)
Definition hexagon_step (lat hex_size : Q) (st : list FixFeature * nat)
           (lon : Q) : Py (list FixFeature * nat) :=
  let '(hexagons, hex_id) := st in
  let hex_coords := hex_ring lat lon hex_size in
  try_except
    (polygon <- call (Polygon hex_coords) ;;
     if is_valid polygon
     then ret (hexagons ++ [valid_feature hex_id lat lon hex_size hex_coords],
               S hex_id)
     else ret (hexagons, hex_id))
    (fun e =>
       print ("Error creating hexagon at " ++ format_float lat ++ ", "
                ++ format_float lon ++ ": " ++ format_exn e)%string ;;
       ret (hexagons, hex_id)).

Definition create_valid_hexagons : Py FeatureCollection :=
  let lat_min := 6.0 in
  let lat_max := 37.0 in
  let lon_min := 68.0 in
  let lon_max := 97.0 in
  let hex_size := 0.5 in
  lats <- call (np_arange lat_min lat_max (hex_size * 0.866)) ;;
  st <- for_each lats
          (fun st lat =>
             lons <- call (np_arange lon_min lon_max hex_size) ;;
             for_each lons (hexagon_step lat hex_size) st)
          ([], 0%nat) ;;
  ret {| collection_type := "FeatureCollection"; features := fst st |}.

(** The [if]/[elif] chain on the city name. *)
Definition city_adjustment (city : string) : option (Q * Q * Q) :=
  if String.eqb city "Mumbai" then Some (19.0760, 72.8777, -(20))
  else if String.eqb city "Delhi" then Some (28.7041, 77.1025, -(15))
  else if String.eqb city "Bangalore" then Some (12.9716, 77.5946, -(25))
  else if String.eqb city "Chennai" then Some (13.0827, 80.2707, -(10))
  else if String.eqb city "Kolkata" then Some (22.5726, 88.3639, -(5))
  else None.

Definition cities : list string :=
  [ "Mumbai"; "Delhi"; "Bangalore"; "Chennai"; "Kolkata" ]%string.

(** The body of the outer loop of [add_lcoh_data] for one feature.  A city
    outside the chain would leave [city_lat] unbound; the list [cities]
    is a literal that the chain covers, and the feature is then left
    as it is. *)
Definition add_lcoh_to_feature (feature : FixFeature) : Py FixFeature :=
  let lat := lat (fix_properties feature) in
  let lon := lon (fix_properties feature) in
  let base_cost_pipeline := 150 in
  let base_cost_trucking := 250 in
  let '(center_lat, center_lon) := (23.5937, 78.9629) in
  let distance := np_sqrt ((lat - center_lat) ^ 2 + (lon - center_lon) ^ 2) in
  let distance_factor := distance * 5 in
  let renewable_factor : Q :=
    if Qltb lat 20 then 30 else if Qltb lon 75 then 25 else 15 in
  r <- np_random_random ;;
  let random_factor := (r - 0.5) * 40 in
  let props :=
    fold_left
      (fun (props : list (string * Q)) city =>
         match city_adjustment city with
         | None => props
         | Some (city_lat, city_lon, city_bonus) =>
             let city_distance :=
               np_sqrt ((lat - city_lat) ^ 2 + (lon - city_lon) ^ 2) in
             let city_factor := city_distance * 8 in
             let pipeline_lcoh :=
               base_cost_pipeline + distance_factor + renewable_factor
               + city_factor + random_factor + city_bonus in
             let pipeline_lcoh := Qmax 80 (Qmin 400 pipeline_lcoh) in
             let trucking_lcoh :=
               base_cost_trucking + distance_factor + renewable_factor
               + city_factor + random_factor + city_bonus in
             let trucking_lcoh := Qmax 150 (Qmin 500 trucking_lcoh) in
             let props :=
               dict_set props (city ++ " pipeline LCOH")%string
                        (py_round pipeline_lcoh 2) in
             dict_set props (city ++ " trucking LCOH")%string
                      (py_round trucking_lcoh 2)
         end)
      cities (lcoh (fix_properties feature)) in
  ret {| fix_type := fix_type feature;
         fix_geometry := fix_geometry feature;
         fix_properties :=
           {| id := id (fix_properties feature);
              lat := lat;
              lon := lon;
              hex_size := hex_size (fix_properties feature);
              lcoh := props |} |}.

Definition add_lcoh_data (hexagons : FeatureCollection) : Py FeatureCollection :=
  fs <- for_each (features hexagons)
          (fun done feature =>
             feature' <- add_lcoh_to_feature feature ;;
             ret (done ++ [feature']))
          [] ;;
  ret {| collection_type := collection_type hexagons; features := fs |}.

End WithLibraries.

End FixHexagons.

(* ================================================================= *)
(** * Executable stand-ins for the external libraries

    Rational approximations of NumPy's kernels, used to run the model on
    concrete inputs.  Nothing is claimed about their accuracy beyond what the
    lemmas on them state. *)

Module Reference.

Definition ref_pi : Q := 3.141592653589793.

(** [sqrt(n/d) = sqrt(n*d)/d], with twelve decimals kept. *)
Definition ref_sqrt (x : Q) : Q :=
  if Qle_bool x 0 then 0
  else
    let n := Qnum x in
    let d := Zpos (Qden x) in
    Qred (inject_Z (Z.sqrt (n * d * 10 ^ 24)) / inject_Z (d * 10 ^ 12)).

(** [1 - x2/(a(a+1)) * (1 - x2/((a+2)(a+3)) * (...))], [n] factors deep:
    the Taylor polynomials of cosine ([a = 1]) and of [sin x / x] ([a = 2])
    in Horner form. *)
Fixpoint horner (x2 : Q) (a : Z) (n : nat) : Q :=
  match n with
  | O => 1
  | S n' => Qred (1 - x2 / inject_Z (a * (a + 1)) * horner x2 (a + 2) n')
  end.

(** Twelve decimals of a rational. *)
Definition truncate12 (x : Q) : Q :=
  Qred (inject_Z (Qfloor (x * inject_Z (10 ^ 12))) / inject_Z (10 ^ 12)).

Definition ref_cos (x : Q) : Q := truncate12 (horner (truncate12 (x * x)) 1 14).
Definition ref_sin (x : Q) : Q := truncate12 (x * horner (truncate12 (x * x)) 2 14).

#[export] Instance ref_numpy : NumPy :=
  {| np_pi := ref_pi; np_cos := ref_cos; np_sin := ref_sin; np_sqrt := ref_sqrt |}.

(** A validator that accepts nothing: every ring can be built and none is
    valid. *)
Definition reject_all : Shapely :=
  {| polygon := list coord;
     Polygon := fun ring => inr ring;
     is_valid := fun _ => false |}.

(** A validator that accepts every ring of at least three positions and
    raises on shorter ones. *)
Definition accept_rings : Shapely :=
  {| polygon := list coord;
     Polygon := fun ring =>
                  if (List.length ring <? 3)%nat
                  then inl (GeometryException "too few points")
                  else inr ring;
     is_valid := fun _ => true |}.

(** Numbers printed as [num/den]. *)
Definition str_of_Z (z : Z) : string :=
  DecimalString.NilZero.string_of_int (Z.to_int z).

#[export] Instance ref_format : PyFormat :=
  {| format_float := fun q =>
       (str_of_Z (Qnum q) ++ "/" ++ str_of_Z (Zpos (Qden q)))%string;
     format_exn := fun e =>
       match e with
       | ValueError msg => msg
       | GeometryException msg => msg
       end |}.

(** An initial world: nothing printed, a random stream of constant [c]. *)
Definition world_with (c : Q) : World :=
  {| stdout := []; rng_stream := fun _ => c; rng_drawn := 0 |}.

End Reference.

(* ================================================================= *)
(** * Statements of the specification, in the terms of the model *)

Module Spec.
Import Scorer.

(** The weighted sum of section 3 of the specification, taken over the
    six cost components as they are stored in the output record. *)
Definition weighted_sum_of_stored (d : LcohData) : Q :=
  0.4 * wind_cost d + 0.6 * solar_cost d + water_cost d
  + infrastructure_cost d + electrolyzer_cost d + transport_cost d.

(** "boundary has exactly 7 vertices with boundary[0] == boundary[6]". *)
Definition closed_ring_of_seven (boundary : list coord) : Prop :=
  List.length boundary = 7%nat /\
  match nth_error boundary 0, nth_error boundary 6 with
  | Some first, Some closing =>
      fst first == fst closing /\ snd first == snd closing
  | _, _ => False
  end.

(** "ids are assigned sequentially in the row-major enumeration order of
    grid candidates": the candidates numbered from [n] on. *)
Fixpoint number_from (n : Z) (candidates : list (Q * Q)) : list (Z * (Q * Q)) :=
  match candidates with
  | [] => []
  | c :: cs => (n, c) :: number_from (n + 1) cs
  end.

(** One cell per candidate of [lats] x [lons], latitude outermost, the
    k-th candidate carrying the id [k]. *)
Definition row_major_cells `{NumPy} (lats lons : list Q) (lat_step : Q)
  : list Feature :=
  map (fun '(k, (lat, lon)) => Generator.hexagon_data k lat lon lat_step)
      (number_from 0 (list_prod lats lons)).

(** "every cell in the output has passed this validation". *)
Definition passed_validation `{Shapely} (boundary : list coord) : Prop :=
  exists p, Polygon boundary = inr p /\ is_valid p = true.

(** What the loops of [create_valid_hexagons] keep true of their variables
    [hexagons] and [hex_id]: every stored ring was accepted by the
    validator, and the ids are hex_0, hex_1, ... without a gap. *)
Definition kept_valid `{Shapely} (st : list FixHexagons.FixFeature * nat) : Prop :=
  Forall (fun f => exists ring,
              coordinates (FixHexagons.fix_geometry f) = [ring]
              /\ passed_validation ring)
         (fst st) /\
  snd st = List.length (fst st) /\
  map (fun f => FixHexagons.id (FixHexagons.fix_properties f)) (fst st)
  = map (fun k => ("hex_" ++ str_of_nat k)%string)
        (seq 0 (List.length (fst st))).

End Spec.

(* ================================================================= *)
(** * Notions used to state further properties of the code *)

Module Facts.

(** The distance in kilometres that the loop of [calculate_transport_cost]
    computes for one demand centre. *)
Definition center_distance_km `{NumPy} (lat lon : Q) (c : Q * Q * string) : Q :=
  np_sqrt ((lat - fst (fst c)) ^ 2 + (lon - snd (fst c)) ^ 2) * 111.0.

(** [d[key]] on a dictionary kept in insertion order; [None] is Python's
    [KeyError]. *)
Fixpoint dict_get (d : list (string * Q)) (key : string) : option Q :=
  match d with
  | [] => None
  | (k, v) :: d' => if String.eqb k key then Some v else dict_get d' key
  end.

(** A ring that shapely builds without raising and finds valid. *)
Definition accepted `{Shapely} (ring : list coord) : bool :=
  match Polygon ring with
  | inl _ => false
  | inr p => is_valid p
  end.

(** The candidates numbered from [n] on. *)
Fixpoint number_nat_from (n : nat) (candidates : list (Q * Q))
  : list (nat * (Q * Q)) :=
  match candidates with
  | [] => []
  | c :: cs => (n, c) :: number_nat_from (S n) cs
  end.

(** The world after some more lines were printed. *)
Definition printed (w : World) (lines : list string) : World :=
  {| stdout := stdout w ++ lines;
     rng_stream := rng_stream w;
     rng_drawn := rng_drawn w |}.

Section WithLibraries.
Context `{NumPy} `{Shapely} `{PyFormat}.

(** The features of the candidates (lat, lon) whose ring is accepted,
    in the order of the candidates, numbered without a gap. *)
Definition kept_cells (hex_size : Q) (candidates : list (Q * Q))
  : list FixHexagons.FixFeature :=
  map (fun '(k, (lat, lon)) =>
         FixHexagons.valid_feature k lat lon hex_size
           (FixHexagons.hex_ring lat lon hex_size))
      (number_nat_from 0
         (filter (fun '(lat, lon) =>
                    accepted (FixHexagons.hex_ring lat lon hex_size))
                 candidates)).

(** The same, numbered from [n] on, and the number of accepted
    candidates. *)
Definition cells_from (n : nat) (hex_size : Q) (candidates : list (Q * Q))
  : list FixHexagons.FixFeature :=
  map (fun '(k, (lat, lon)) =>
         FixHexagons.valid_feature k lat lon hex_size
           (FixHexagons.hex_ring lat lon hex_size))
      (number_nat_from n
         (filter (fun '(lat, lon) =>
                    accepted (FixHexagons.hex_ring lat lon hex_size))
                 candidates)).

Definition accepted_count (hex_size : Q) (candidates : list (Q * Q)) : nat :=
  List.length
    (filter (fun '(lat, lon) =>
               accepted (FixHexagons.hex_ring lat lon hex_size))
            candidates).

(** One line for every candidate whose ring makes the constructor
    raise, in the order of the candidates. *)
Definition error_lines (hex_size : Q) (candidates : list (Q * Q))
  : list string :=
  flat_map
    (fun '(lat, lon) =>
       match Polygon (FixHexagons.hex_ring lat lon hex_size) with
       | inl e =>
           [("Error creating hexagon at " ++ format_float lat ++ ", "
               ++ format_float lon ++ ": " ++ format_exn e)%string]
       | inr _ => []
       end)
    candidates.

End WithLibraries.

(** A dictionary that holds, for each of the five cities, a pipeline cost
    between 80 and 400 and a trucking cost between 150 and 500 that is at
    least 70 above the pipeline cost. *)
Definition lcoh_in_range (d : list (string * Q)) : Prop :=
  forall city, In city FixHexagons.cities ->
    exists pipeline trucking,
      dict_get d (city ++ " pipeline LCOH")%string = Some pipeline /\
      dict_get d (city ++ " trucking LCOH")%string = Some trucking /\
      80 <= pipeline <= 400 /\ 150 <= trucking <= 500 /\
      pipeline + 70 <= trucking.

(** [f'] is the feature [f] but for the costs added to its properties. *)
Definition same_cell (f f' : FixHexagons.FixFeature) : Prop :=
  FixHexagons.fix_type f' = FixHexagons.fix_type f /\
  FixHexagons.fix_geometry f' = FixHexagons.fix_geometry f /\
  FixHexagons.id (FixHexagons.fix_properties f')
  = FixHexagons.id (FixHexagons.fix_properties f) /\
  FixHexagons.lat (FixHexagons.fix_properties f')
  = FixHexagons.lat (FixHexagons.fix_properties f) /\
  FixHexagons.lon (FixHexagons.fix_properties f')
  = FixHexagons.lon (FixHexagons.fix_properties f) /\
  FixHexagons.hex_size (FixHexagons.fix_properties f')
  = FixHexagons.hex_size (FixHexagons.fix_properties f).

End Facts.

Import Spec.

(* ================================================================= *)
(** * Arithmetic toolbox *)

(** [lra] does not see through division by a literal: turn [x / c] into
    [x * c'] first. *)
Ltac qinv_consts :=
  unfold Qdiv in *;
  repeat match goal with
    | |- context [Qinv (Qmake ?n ?d)] =>
        let v := eval vm_compute in (Qinv (Qmake n d)) in
        change (Qinv (Qmake n d)) with v
    | H : context [Qinv (Qmake ?n ?d)] |- _ =>
        let v := eval vm_compute in (Qinv (Qmake n d)) in
        change (Qinv (Qmake n d)) with v in H
    end.
Ltac qlra := qinv_consts; lra.

Lemma Qleb_true (a b : Q) : Qleb a b = true -> a <= b.
Proof. apply Qle_bool_iff. Qed.

Lemma Qleb_false (a b : Q) : Qleb a b = false -> b < a.
Proof.
  unfold Qleb. intros E. apply Qnot_le_lt. intros L.
  apply Qle_bool_iff in L. congruence.
Qed.

Lemma Qgeb_true (a b : Q) : Qgeb a b = true -> b <= a.
Proof. apply Qle_bool_iff. Qed.

Lemma Qgeb_false (a b : Q) : Qgeb a b = false -> a < b.
Proof. apply Qleb_false. Qed.

Lemma Qltb_true (a b : Q) : Qltb a b = true -> a < b.
Proof. unfold Qltb. intros E. apply negb_true_iff in E. now apply Qleb_false. Qed.

Lemma Qltb_false (a b : Q) : Qltb a b = false -> b <= a.
Proof. unfold Qltb. intros E. apply negb_false_iff in E. now apply Qleb_true. Qed.

Lemma Qgtb_true (a b : Q) : Qgtb a b = true -> b < a.
Proof. unfold Qgtb. intros E. apply negb_true_iff in E. now apply Qleb_false. Qed.

Lemma Qgtb_false (a b : Q) : Qgtb a b = false -> a <= b.
Proof. unfold Qgtb. intros E. apply negb_false_iff in E. now apply Qleb_true. Qed.

(** Split on one comparison of the goal and keep its meaning. *)
Ltac qcase :=
  match goal with
  | |- context [Qleb ?a ?b] =>
      let E := fresh "E" in
      destruct (Qleb a b) eqn:E;
      [apply Qleb_true in E | apply Qleb_false in E]
  | |- context [Qgeb ?a ?b] =>
      let E := fresh "E" in
      destruct (Qgeb a b) eqn:E;
      [apply Qgeb_true in E | apply Qgeb_false in E]
  | |- context [Qltb ?a ?b] =>
      let E := fresh "E" in
      destruct (Qltb a b) eqn:E;
      [apply Qltb_true in E | apply Qltb_false in E]
  | |- context [Qgtb ?a ?b] =>
      let E := fresh "E" in
      destruct (Qgtb a b) eqn:E;
      [apply Qgtb_true in E | apply Qgtb_false in E]
  end.

(** Decide a closed comparison of rationals by evaluation. *)
Ltac qclosed :=
  match goal with
  | |- _ /\ _ => split; qclosed
  | |- _ <= _ => vm_compute; discriminate
  | |- _ < _ => vm_compute; reflexivity
  | |- _ == _ => vm_compute; reflexivity
  end.

Section Rounding.

Lemma round_half_even_range (x : Q) :
  (Qfloor x <= round_half_even x <= Qfloor x + 1)%Z.
Proof.
  unfold round_half_even.
  destruct (Qcompare _ _); try destruct (Z.even _); lia.
Qed.

Lemma round_half_even_near (x : Q) :
  inject_Z (round_half_even x) - (1 # 2) <= x
  <= inject_Z (round_half_even x) + (1 # 2).
Proof.
  unfold round_half_even.
  pose proof (Qfloor_le x) as Hlo.
  pose proof (Qlt_floor x) as Hhi.
  rewrite inject_Z_plus in Hhi. change (inject_Z 1) with 1 in Hhi.
  destruct (Qcompare_spec (x - inject_Z (Qfloor x)) (1 # 2)) as [E | L | G].
  - destruct (Z.even (Qfloor x));
      [| rewrite inject_Z_plus; change (inject_Z 1) with 1]; lra.
  - lra.
  - rewrite inject_Z_plus. change (inject_Z 1) with 1. lra.
Qed.

Lemma round_half_even_mono (x y : Q) :
  x <= y -> (round_half_even x <= round_half_even y)%Z.
Proof.
  intros Hxy.
  pose proof (Qfloor_resp_le _ _ Hxy) as Hf.
  destruct (Z.eq_dec (Qfloor x) (Qfloor y)) as [E | N].
  - unfold round_half_even. rewrite <- E.
    destruct (Qcompare_spec (x - inject_Z (Qfloor x)) (1 # 2)) as [Ex | Lx | Gx];
      destruct (Qcompare_spec (y - inject_Z (Qfloor x)) (1 # 2)) as [Ey | Ly | Gy];
      try destruct (Z.even (Qfloor x)); try lia; exfalso; lra.
  - pose proof (round_half_even_range x).
    pose proof (round_half_even_range y). lia.
Qed.

Lemma round_half_even_Z (x : Q) (z : Z) :
  x == inject_Z z -> round_half_even x = z.
Proof.
  intros E. unfold round_half_even.
  assert (Qfloor x = z) as -> by (rewrite E; apply Qfloor_Z).
  destruct (Qcompare_spec (x - inject_Z z) (1 # 2)) as [E1 | L | G];
    try reflexivity; exfalso; lra.
Qed.

Lemma py_round_2 (x : Q) :
  py_round x 2 == inject_Z (round_half_even (x * 100)) / 100.
Proof. unfold py_round. rewrite Qred_correct. reflexivity. Qed.

Lemma py_round_1 (x : Q) :
  py_round x 1 == inject_Z (round_half_even (x * 10)) / 10.
Proof. unfold py_round. rewrite Qred_correct. reflexivity. Qed.

(** Rounding to two decimals moves a value by at most half a cent. *)
Lemma py_round_2_near (x : Q) : x - 0.005 <= py_round x 2 <= x + 0.005.
Proof.
  rewrite py_round_2.
  pose proof (round_half_even_near (x * 100)). qlra.
Qed.

Lemma py_round_2_mono (x y : Q) : x <= y -> py_round x 2 <= py_round y 2.
Proof.
  intros L. rewrite !py_round_2.
  assert (x * 100 <= y * 100) as L' by lra.
  apply round_half_even_mono in L'. rewrite Zle_Qle in L'. qlra.
Qed.

Lemma py_round_1_mono (x y : Q) : x <= y -> py_round x 1 <= py_round y 1.
Proof.
  intros L. rewrite !py_round_1.
  assert (x * 10 <= y * 10) as L' by lra.
  apply round_half_even_mono in L'. rewrite Zle_Qle in L'. qlra.
Qed.

(** A value that already has two decimals is left alone. *)
Lemma py_round_2_exact (x : Q) (z : Z) :
  x == inject_Z z / 100 -> py_round x 2 == x.
Proof.
  intros E. rewrite py_round_2.
  rewrite (round_half_even_Z (x * 100) z).
  - symmetry; exact E.
  - rewrite E. field.
Qed.

Lemma py_round_1_exact (x : Q) (z : Z) :
  x == inject_Z z / 10 -> py_round x 1 == x.
Proof.
  intros E. rewrite py_round_1.
  rewrite (round_half_even_Z (x * 10) z).
  - symmetry; exact E.
  - rewrite E. field.
Qed.

(** Rounding to one decimal keeps a value between two bounds that have
    one decimal themselves. *)
Lemma py_round_1_between (x : Q) (lo hi : Z) :
  inject_Z lo / 10 <= x <= inject_Z hi / 10 ->
  inject_Z lo / 10 <= py_round x 1 <= inject_Z hi / 10.
Proof.
  intros [L U]. split.
  - rewrite <- (py_round_1_exact (inject_Z lo / 10) lo) by reflexivity.
    now apply py_round_1_mono.
  - rewrite <- (py_round_1_exact (inject_Z hi / 10) hi) by reflexivity.
    now apply py_round_1_mono.
Qed.

Lemma py_round_2_between (x : Q) (lo hi : Z) :
  inject_Z lo / 100 <= x <= inject_Z hi / 100 ->
  inject_Z lo / 100 <= py_round x 2 <= inject_Z hi / 100.
Proof.
  intros [L U]. split.
  - rewrite <- (py_round_2_exact (inject_Z lo / 100) lo) by reflexivity.
    now apply py_round_2_mono.
  - rewrite <- (py_round_2_exact (inject_Z hi / 100) hi) by reflexivity.
    now apply py_round_2_mono.
Qed.

End Rounding.
(* ================================================================= *)
(** * The cost scorer *)

Section ScorerFacts.
Import Scorer Spec.

(** ** Water cost *)

(** C10: [calculate_water_cost] is defined on every string; it answers
    0.5 exactly for "High", 1.2 exactly for "Medium" and 2.5 for every
    other string. *)
Theorem calculate_water_cost_total (s : string) :
  (calculate_water_cost s = 0.5 \/ calculate_water_cost s = 1.2
   \/ calculate_water_cost s = 2.5) /\
  (calculate_water_cost s = 0.5 <-> s = "High"%string) /\
  (calculate_water_cost s = 1.2 <-> s = "Medium"%string) /\
  (s <> "High"%string -> s <> "Medium"%string -> calculate_water_cost s = 2.5).
Proof.
  unfold calculate_water_cost.
  destruct (String.eqb_spec s "High") as [-> | NH].
  - cbn. repeat split; auto; try discriminate. intros N; now elim N.
  - destruct (String.eqb_spec s "Medium") as [-> | NM].
    + repeat split; auto; try discriminate. intros _ N; now elim N.
    + repeat split; auto; try discriminate; intros E; now subst.
Qed.

Lemma calculate_water_cost_total_witness :
  calculate_water_cost "Hihg" = 2.5.
Proof.
  apply (calculate_water_cost_total "Hihg"); discriminate.
Defined.

(** ** Wind cost *)

(** C8: the wind cost is 45.0 over the capacity factor of the band of
    [wind_potential], times [1.0 + (elevation/1000.0)*0.1]; at
    [wind_potential = 6.0], [elevation = 0] it is [45.0/0.35], which is
    128.57 to two decimals. *)
Theorem wind_cost_piecewise (wind_potential : Q) (elevation : Z) :
  let scale := 1.0 + (inject_Z elevation / 1000.0) * 0.1 in
  let cost := calculate_wind_energy_cost wind_potential elevation in
  (6.0 <= wind_potential -> cost == 45.0 / 0.35 * scale) /\
  (5.0 <= wind_potential < 6.0 -> cost == 45.0 / 0.28 * scale) /\
  (4.0 <= wind_potential < 5.0 -> cost == 45.0 / 0.20 * scale) /\
  (wind_potential < 4.0 -> cost == 45.0 / 0.12 * scale) /\
  calculate_wind_energy_cost 6.0 0 == 45.0 / 0.35 /\
  Qabs (calculate_wind_energy_cost 6.0 0 - 128.57) < 0.005.
Proof.
  cbv zeta. unfold calculate_wind_energy_cost.
  repeat split; intros; repeat qcase; try reflexivity; exfalso; lra.
Qed.

Lemma wind_cost_piecewise_witness :
  calculate_wind_energy_cost 5.5 500 == 45.0 / 0.28 * (1.0 + (500 / 1000.0) * 0.1).
Proof.
  apply (wind_cost_piecewise 5.5 500). split; [discriminate | reflexivity].
Defined.

(** ** Suitability *)

(** The step function of [calculate_suitability_score], by itself. *)
Lemma suitability_unfold (lcoh w s : Q) :
  exists lcoh_score : Q,
    calculate_suitability_score lcoh w s
    = py_round (lcoh_score * 0.6 + (w / 7.0 + s / 6.5) * 50 * 0.4) 1 /\
    (lcoh <= 3.0 -> lcoh_score = 100) /\
    (3.0 < lcoh <= 4.0 -> lcoh_score = 85) /\
    (4.0 < lcoh <= 5.0 -> lcoh_score = 70) /\
    (5.0 < lcoh <= 6.0 -> lcoh_score = 55) /\
    (6.0 < lcoh -> lcoh_score = 40) /\
    40 <= lcoh_score <= 100.
Proof.
  unfold calculate_suitability_score.
  repeat qcase; eexists; (split; [reflexivity |]);
    repeat split; intros; try reflexivity; try (exfalso; lra); try lra.
Qed.

(** C7: with the renewable inputs fixed, a lower [total_lcoh] never gives
    a lower suitability score. *)
Theorem suitability_monotone_in_lcoh (lcoh1 lcoh2 wind solar : Q) :
  lcoh1 <= lcoh2 ->
  calculate_suitability_score lcoh2 wind solar
  <= calculate_suitability_score lcoh1 wind solar.
Proof.
  intros L. unfold calculate_suitability_score.
  apply py_round_1_mono.
  repeat qcase; try lra; exfalso; lra.
Qed.

Lemma suitability_monotone_in_lcoh_witness :
  calculate_suitability_score 6.5 5.5 7.18
  <= calculate_suitability_score 2.9 5.5 7.18.
Proof.
  apply (suitability_monotone_in_lcoh 2.9 6.5 5.5 7.18). discriminate.
Defined.

Context `{NumPy}.

(** ** Total LCOH *)

Lemma stored_total_is_rounded_total (hexagon : Feature) :
  total_lcoh (calculate_lcoh_for_hexagon hexagon)
  = py_round (unrounded_total_lcoh (properties hexagon)) 2.
Proof. reflexivity. Qed.

Lemma stored_suitability (hexagon : Feature) :
  suitability_score (calculate_lcoh_for_hexagon hexagon)
  = calculate_suitability_score
      (unrounded_total_lcoh (properties hexagon))
      (wind_potential (properties hexagon))
      (solar_potential (properties hexagon)).
Proof. reflexivity. Qed.

Lemma water_cost_two_decimals (s : string) :
  py_round (calculate_water_cost s) 2 == calculate_water_cost s.
Proof.
  unfold calculate_water_cost.
  destruct (String.eqb s "High"); [| destruct (String.eqb s "Medium")];
    reflexivity.
Qed.

Lemma infrastructure_cost_two_decimals (score : Z) :
  py_round (calculate_infrastructure_cost score) 2
  == calculate_infrastructure_cost score.
Proof.
  unfold calculate_infrastructure_cost.
  repeat match goal with |- context [(?a >=? ?b)%Z] => destruct (a >=? b)%Z end;
    reflexivity.
Qed.

Lemma electrolyzer_cost_two_decimals :
  py_round calculate_electrolyzer_cost 2 == calculate_electrolyzer_cost.
Proof. reflexivity. Qed.

(** C1, as the code has it: the stored total is the two-decimal rounding
    of the weighted sum of the unrounded components, and it is within
    0.015 of the weighted sum of the stored, rounded components. *)
Theorem stored_total_close_to_stored_sum (hexagon : Feature) :
  let d := calculate_lcoh_for_hexagon hexagon in
  total_lcoh d = py_round (unrounded_total_lcoh (properties hexagon)) 2 /\
  Qabs (total_lcoh d - weighted_sum_of_stored d) <= 0.015.
Proof.
  cbv zeta. split; [reflexivity |].
  cbv beta iota zeta delta
      [weighted_sum_of_stored calculate_lcoh_for_hexagon total_lcoh wind_cost
       solar_cost water_cost infrastructure_cost electrolyzer_cost
       transport_cost].
  set (p := properties hexagon).
  rewrite water_cost_two_decimals, infrastructure_cost_two_decimals,
    electrolyzer_cost_two_decimals.
  set (wc := calculate_wind_energy_cost _ _).
  set (sc := calculate_solar_energy_cost _).
  set (tc := calculate_transport_cost _ _).
  set (rest := calculate_water_cost _).
  set (ic := calculate_infrastructure_cost _).
  set (ec := calculate_electrolyzer_cost).
  pose proof (py_round_2_near wc).
  pose proof (py_round_2_near sc).
  pose proof (py_round_2_near tc).
  pose proof (py_round_2_near (wc * 0.4 + sc * 0.6 + rest + ic + ec + tc)).
  apply Qabs_Qle_condition. split; lra.
Qed.

(** The running minimum of [calculate_transport_cost] is never left at
    [float('inf')]. *)
Lemma transport_min_distance_finite (lat lon : Q) :
  exists q, transport_min_distance lat lon = Finite q.
Proof.
  unfold transport_min_distance, demand_centers.
  cbv [fold_left py_min]. eexists. reflexivity.
Qed.

(** ** Range of the suitability score *)

Hypothesis np_sqrt_nonneg : forall x, 0 <= np_sqrt x.

Lemma transport_cost_nonneg (lat lon : Q) : 0 <= calculate_transport_cost lat lon.
Proof.
  unfold calculate_transport_cost, transport_min_distance, demand_centers.
  cbv [fold_left py_min finite_value].
  repeat match goal with
         | |- context [np_sqrt ?x] =>
             let d := fresh "d" in
             let Hd := fresh "Hd" in
             pose proof (np_sqrt_nonneg x) as Hd;
             set (d := np_sqrt x) in *; clearbody d
         end.
  assert (forall a b, 0 <= a -> 0 <= b -> 0 <= Qmin a b) as Hmin
      by (intros; now apply Q.min_glb).
  assert (0 <= Qmin (Qmin (Qmin (Qmin (d * 111.0) (d0 * 111.0)) (d1 * 111.0))
                          (d2 * 111.0)) (d3 * 111.0)) as Hm
      by (repeat apply Hmin; lra).
  revert Hm. generalize (Qmin (Qmin (Qmin (Qmin (d * 111.0) (d0 * 111.0))
                                          (d1 * 111.0)) (d2 * 111.0)) (d3 * 111.0)).
  intros m Hm. qlra.
Qed.

End ScorerFacts.
(* ================================================================= *)
(** * Attributes computed by the generator *)

Section GeneratorAttributes.
Import Generator.

Lemma wind_potential_range (lat lon : Q) :
  4 <= calculate_wind_potential lat lon <= 8.58.
Proof.
  unfold calculate_wind_potential.
  set (coastal_distance := py_min_of _ _).
  repeat (qcase; cbn [andb]); qclosed.
Qed.

Lemma elevation_estimate_nonneg (lat lon : Q) :
  (0 <= get_elevation_estimate lat lon)%Z.
Proof.
  unfold get_elevation_estimate.
  repeat (qcase; cbn [andb]); lia.
Qed.

Context `{NumPy}.

Lemma solar_potential_range (lat lon : Q) :
  6 <= lat <= 38 ->
  3.84 <= calculate_solar_potential lat lon <= 9.42.
Proof.
  intros [Hlo Hhi]. unfold calculate_solar_potential.
  set (northwest_distance := np_sqrt _).
  repeat qcase;
    match goal with
    | |- _ <= py_round ?x 2 <= _ => pose proof (py_round_2_near x)
    end; split; lra.
Qed.

End GeneratorAttributes.

(* ================================================================= *)
(** * Range of the suitability score on generated cells *)

Section SuitabilityRange.
Import Scorer Generator.

Lemma wind_cost_positive (wind_potential : Q) (elevation : Z) :
  (0 <= elevation)%Z -> 0 <= calculate_wind_energy_cost wind_potential elevation.
Proof.
  intros He. rewrite Zle_Qle in He. change (inject_Z 0) with 0 in He.
  unfold calculate_wind_energy_cost.
  set (e := inject_Z elevation) in *.
  repeat qcase; qlra.
Qed.

Lemma solar_cost_at_least (solar_potential : Q) :
  159 <= calculate_solar_energy_cost solar_potential.
Proof.
  unfold calculate_solar_energy_cost. repeat qcase; qclosed.
Qed.

Lemma water_cost_at_least (s : string) : 0.5 <= calculate_water_cost s.
Proof.
  unfold calculate_water_cost.
  destruct (String.eqb s "High"); [| destruct (String.eqb s "Medium")]; qclosed.
Qed.

Lemma infrastructure_cost_at_least (score : Z) :
  0.3 <= calculate_infrastructure_cost score.
Proof.
  unfold calculate_infrastructure_cost.
  repeat match goal with |- context [(?a >=? ?b)%Z] => destruct (a >=? b)%Z end;
    qclosed.
Qed.

(** Without a bound on [lcoh] the score leaves the interval: a wind of 6.5
    and a solar potential of 7.18, which the generator gives at (6, 72),
    score 100.7 when the cost is 3.0.  No scored cell has such a cost, see
    [generated_total_lcoh_large]. *)
Remark suitability_above_100_for_cheap_hydrogen :
  calculate_suitability_score 3.0 6.5 7.18 == 100.7.
Proof. vm_compute. reflexivity. Qed.

Context `{NumPy}.
Hypothesis np_sqrt_nonneg : forall x, 0 <= np_sqrt x.

(** Every cell that the generator can build costs far more than the
    highest threshold of the step function. *)
Lemma generated_total_lcoh_large (hex_id : Z) (lat lon lat_step : Q) :
  90 < unrounded_total_lcoh (properties (hexagon_data hex_id lat lon lat_step)).
Proof.
  unfold unrounded_total_lcoh, hexagon_data.
  cbv beta iota zeta delta
      [properties wind_potential solar_potential water_availability
       infrastructure_score elevation center_lat center_lon].
  pose proof (wind_cost_positive (calculate_wind_potential lat lon)
                (get_elevation_estimate lat lon)
                (elevation_estimate_nonneg lat lon)).
  pose proof (solar_cost_at_least (calculate_solar_potential lat lon)).
  pose proof (water_cost_at_least (calculate_water_availability lat lon)).
  pose proof (infrastructure_cost_at_least
                (calculate_infrastructure_score lat lon)).
  pose proof (transport_cost_nonneg np_sqrt_nonneg lat lon).
  unfold calculate_electrolyzer_cost. lra.
Qed.

(** The score of a cell built at a latitude of the bounding box. *)
Lemma generated_cell_score_range (hex_id : Z) (lat lon lat_step : Q) :
  6 <= lat <= 38 ->
  let cell := hexagon_data hex_id lat lon lat_step in
  0 <= suitability_score (calculate_lcoh_for_hexagon cell) <= 100.
Proof.
  intros Hlat cell.
  rewrite stored_suitability.
  pose proof (generated_total_lcoh_large hex_id lat lon lat_step) as Hbig.
  fold cell in Hbig.
  generalize dependent (unrounded_total_lcoh (properties cell)).
  intros lcoh Hbig.
  subst cell. unfold hexagon_data.
  cbv beta iota zeta delta [properties wind_potential solar_potential].
  destruct (suitability_unfold lcoh
              (calculate_wind_potential lat lon)
              (calculate_solar_potential lat lon))
    as (lcoh_score & -> & _ & _ & _ & _ & H40 & _).
  rewrite H40 by lra.
  pose proof (wind_potential_range lat lon).
  pose proof (solar_potential_range lat lon Hlat).
  match goal with
  | |- _ <= py_round ?x 1 <= _ =>
      pose proof (py_round_1_between x 0 1000) as Hround
  end.
  cbv [inject_Z] in Hround. qlra.
Qed.

End SuitabilityRange.
(* ================================================================= *)
(** * The grid loops of create_india_hexagons *)

Section GridLoop.
Import Generator Spec.
Context `{NumPy}.

Lemma number_from_app (n : Z) (a b : list (Q * Q)) :
  number_from n (a ++ b)
  = number_from n a ++ number_from (n + Z.of_nat (List.length a)) b.
Proof.
  revert n. induction a as [| c a IH]; intros n.
  - cbn. now rewrite Z.add_0_r.
  - cbn [app number_from List.length]. rewrite IH. f_equal. f_equal. f_equal. lia.
Qed.

Lemma number_from_ids (n : Z) (l : list (Q * Q)) :
  map fst (number_from n l)
  = map (fun k => (n + Z.of_nat k)%Z) (seq 0 (List.length l)).
Proof.
  revert n. induction l as [| c l IH]; intros n; [reflexivity |].
  cbn [number_from map List.length seq fst]. f_equal.
  - cbn. lia.
  - rewrite IH, <- seq_shift, map_map. apply map_ext. intros k. lia.
Qed.

(** The inner loop appends one cell per longitude and advances the
    counter by one each time. *)
Lemma inner_loop_spec (lat lat_step : Q) (lons : list Q)
      (hexagons : list Feature) (n : Z) :
  fold_left
    (fun '(hexagons, hex_id) lon =>
       (hexagons ++ [hexagon_data hex_id lat lon lat_step], (hex_id + 1)%Z))
    lons (hexagons, n)
  = (hexagons
       ++ map (fun '(k, (lat, lon)) => hexagon_data k lat lon lat_step)
              (number_from n (map (pair lat) lons)),
     (n + Z.of_nat (List.length lons))%Z).
Proof.
  revert hexagons n. induction lons as [| lon lons IH]; intros hexagons n.
  - cbn. now rewrite app_nil_r, Z.add_0_r.
  - cbn [fold_left]. rewrite IH. cbn [map number_from List.length].
    rewrite <- app_assoc. cbn [app]. f_equal. lia.
Qed.

Lemma grid_loop_spec (lats lons : list Q) (lat_step : Q)
      (hexagons : list Feature) (n : Z) :
  grid_loop lats lons lat_step (hexagons, n)
  = (hexagons
       ++ map (fun '(k, (lat, lon)) => hexagon_data k lat lon lat_step)
              (number_from n (list_prod lats lons)),
     (n + Z.of_nat (List.length (list_prod lats lons)))%Z).
Proof.
  unfold grid_loop.
  revert hexagons n. induction lats as [| lat lats IH]; intros hexagons n.
  - cbn. now rewrite app_nil_r, Z.add_0_r.
  - cbn [fold_left list_prod]. rewrite inner_loop_spec, IH.
    rewrite number_from_app, map_app, <- app_assoc.
    rewrite !length_app, !length_map. f_equal. lia.
Qed.

(** What a run returns, whatever was printed or drawn before it. *)
Lemma create_india_hexagons_result (resolution_km : Q) (w : World) :
  result (create_india_hexagons resolution_km) w
  = let lat_step := resolution_km / 111.0 in
    let lon_step :=
      resolution_km / (111.0 * np_cos (np_radians ((6.0 + 37.0) / 2))) in
    match np_arange 6.0 (37.0 + lat_step) lat_step with
    | inl e => inl e
    | inr lats =>
        match np_arange 68.0 (97.0 + lon_step) lon_step with
        | inl e => inl e
        | inr lons => inr (row_major_cells lats lons lat_step)
        end
    end.
Proof.
  unfold result, create_india_hexagons, bind, call, print, ret.
  cbv zeta. cbn [fst snd].
  destruct (np_arange 6.0 _ _) as [e | lats]; [reflexivity |].
  destruct (np_arange 68.0 _ _) as [e | lons]; [reflexivity |].
  rewrite grid_loop_spec. reflexivity.
Qed.

Lemma row_major_ids (lats lons : list Q) (lat_step : Q) :
  map (fun f => hex_id (properties f)) (row_major_cells lats lons lat_step)
  = map Z.of_nat (seq 0 (List.length (row_major_cells lats lons lat_step))).
Proof.
  unfold row_major_cells. rewrite length_map, map_map.
  transitivity (map fst (number_from 0 (list_prod lats lons))).
  - apply map_ext. intros [k [lat lon]]. reflexivity.
  - rewrite number_from_ids.
    assert (List.length (number_from 0 (list_prod lats lons))
            = List.length (list_prod lats lons)) as ->.
    { rewrite <- (length_map fst), number_from_ids. now rewrite length_map, length_seq. }
    apply map_ext. intros k. lia.
Qed.

Lemma row_major_length (lats lons : list Q) (lat_step : Q) :
  List.length (row_major_cells lats lons lat_step)
  = (List.length lats * List.length lons)%nat.
Proof.
  unfold row_major_cells. rewrite length_map.
  rewrite <- (length_map fst), number_from_ids, length_map, length_seq.
  apply length_prod.
Qed.

Lemma sequential_ids_NoDup (n : nat) : NoDup (map Z.of_nat (seq 0 n)).
Proof.
  apply Injective_map_NoDup; [| apply seq_NoDup].
  intros a b E. lia.
Qed.

(** The candidate in row [i] and column [j] is at position
    [i * len(lons) + j] of the row-major enumeration. *)
Lemma nth_error_list_prod {A B : Type} (l1 : list A) (l2 : list B)
      (i j : nat) (a : A) (b : B) :
  nth_error l1 i = Some a -> nth_error l2 j = Some b ->
  nth_error (list_prod l1 l2) (i * List.length l2 + j) = Some (a, b).
Proof.
  revert i. induction l1 as [| x l1 IH]; intros i Ha Hb.
  - destruct i; discriminate.
  - cbn [list_prod]. destruct i as [| i].
    + cbn in Ha. injection Ha as ->. cbn [Nat.mul Nat.add].
      rewrite nth_error_app1.
      * now apply map_nth_error.
      * rewrite length_map. apply nth_error_Some. congruence.
    + cbn [nth_error] in Ha.
      rewrite nth_error_app2; rewrite length_map; [| cbn; lia].
      replace (S i * List.length l2 + j - List.length l2)%nat
        with (i * List.length l2 + j)%nat by (cbn; lia).
      now apply IH.
Qed.

Lemma nth_error_number_from (n : Z) (l : list (Q * Q)) (k : nat) (c : Q * Q) :
  nth_error l k = Some c ->
  nth_error (number_from n l) k = Some ((n + Z.of_nat k)%Z, c).
Proof.
  revert n k. induction l as [| x l IH]; intros n k Hk.
  - destruct k; discriminate.
  - destruct k as [| k]; cbn [nth_error number_from] in *.
    + injection Hk as ->. do 2 f_equal. lia.
    + rewrite (IH _ _ Hk). do 2 f_equal. lia.
Qed.

Lemma row_major_nth (lats lons : list Q) (lat_step : Q) (i j : nat)
      (lat lon : Q) :
  nth_error lats i = Some lat -> nth_error lons j = Some lon ->
  nth_error (row_major_cells lats lons lat_step) (i * List.length lons + j)
  = Some (hexagon_data (Z.of_nat (i * List.length lons + j)) lat lon lat_step).
Proof.
  intros Hlat Hlon. unfold row_major_cells.
  pose proof (nth_error_number_from 0 _ _ _
                (nth_error_list_prod _ _ _ _ _ _ Hlat Hlon)) as Hk.
  rewrite (map_nth_error _ _ _ Hk). reflexivity.
Qed.

(** A run that returns has built its cells from the two ranges of
    [np.arange], one cell for each pair, and printed its two lines. *)
Lemma run_is_row_major (resolution_km : Q) (w : World)
      (hexagons : list Feature) :
  result (create_india_hexagons resolution_km) w = inr hexagons ->
  let lat_step := resolution_km / 111.0 in
  let lon_step :=
    resolution_km / (111.0 * np_cos (np_radians ((6.0 + 37.0) / 2))) in
  exists lats lons,
    np_arange 6.0 (37.0 + lat_step) lat_step = inr lats /\
    np_arange 68.0 (97.0 + lon_step) lon_step = inr lons /\
    hexagons = row_major_cells lats lons lat_step /\
    stdout (snd (create_india_hexagons resolution_km w))
    = stdout w
        ++ ["Creating India hexagon grid..."%string;
            ("Created " ++ str_of_nat (List.length hexagons)
               ++ " hexagons covering India")%string].
Proof.
  unfold result, create_india_hexagons, bind, call, print, ret.
  cbv zeta. cbn [fst snd].
  destruct (np_arange 6.0 _ _) as [e | lats]; [discriminate |].
  destruct (np_arange 68.0 _ _) as [e | lons]; [discriminate |].
  rewrite grid_loop_spec. cbn [app fst snd stdout].
  intros [= <-]. exists lats, lons.
  split; [reflexivity |]. split; [reflexivity |]. split; [reflexivity |].
  rewrite <- app_assoc. reflexivity.
Qed.

(** C9: the cells of one run are the grid candidates that the two calls
    of [np.arange] return, in row-major order (latitude outermost): the
    candidate in row [i] and column [j] is the cell at position
    [i * len(lons) + j] and carries that number as its id.  The ids of a
    run are therefore 0, 1, 2, ... in that order, and pairwise
    different. *)
Theorem hex_ids_sequential_row_major (resolution_km : Q) (w : World)
        (hexagons : list Feature) :
  result (create_india_hexagons resolution_km) w = inr hexagons ->
  let lat_step := resolution_km / 111.0 in
  let lon_step :=
    resolution_km / (111.0 * np_cos (np_radians ((6.0 + 37.0) / 2))) in
  exists lats lons,
    np_arange 6.0 (37.0 + lat_step) lat_step = inr lats /\
    np_arange 68.0 (97.0 + lon_step) lon_step = inr lons /\
    hexagons = row_major_cells lats lons lat_step /\
    List.length hexagons = (List.length lats * List.length lons)%nat /\
    (forall i j lat lon,
        nth_error lats i = Some lat -> nth_error lons j = Some lon ->
        nth_error hexagons (i * List.length lons + j)
        = Some (hexagon_data (Z.of_nat (i * List.length lons + j))
                  lat lon lat_step)) /\
    map (fun f => hex_id (properties f)) hexagons
    = map Z.of_nat (seq 0 (List.length hexagons)) /\
    NoDup (map (fun f => hex_id (properties f)) hexagons).
Proof.
  intros R. destruct (run_is_row_major _ _ _ R) as (lats & lons & El & Eo & -> & _).
  cbv zeta. exists lats, lons.
  split; [exact El |]. split; [exact Eo |]. split; [reflexivity |].
  split; [apply row_major_length |].
  split; [intros i j lat lon; apply row_major_nth |].
  split; [apply row_major_ids |].
  rewrite row_major_ids. apply sequential_ids_NoDup.
Qed.

(** C6: two runs with the same resolution return the same sequence of
    cells, whatever the state of the world (output printed so far, random
    generator) at the start of each, and a run draws no random number. *)
Theorem create_india_hexagons_deterministic (resolution_km : Q)
        (w1 w2 : World) :
  result (create_india_hexagons resolution_km) w1
  = result (create_india_hexagons resolution_km) w2 /\
  rng_drawn (snd (create_india_hexagons resolution_km w1)) = rng_drawn w1.
Proof.
  split.
  - now rewrite !create_india_hexagons_result.
  - unfold create_india_hexagons, bind, call, print, ret. cbv zeta.
    destruct (np_arange 6.0 _ _) as [e | lats]; [reflexivity |].
    destruct (np_arange 68.0 _ _) as [e | lons]; [reflexivity |].
    destruct (grid_loop _ _ _ _). reflexivity.
Qed.

(** ** The boundary ring *)

Lemma create_hexagon_length (lat lon radius_deg : Q) :
  List.length (create_hexagon lat lon radius_deg) = 6%nat.
Proof. unfold create_hexagon. now rewrite length_map. Qed.

(** C2 on create_india_hexagons.py: the boundary of a generated cell is
    the ring of [create_hexagon], which has six vertices and no seventh,
    closing one. *)
Theorem generated_boundary_has_six_vertices (hex_id : Z) (lat lon lat_step : Q) :
  exists ring,
    coordinates (geometry (hexagon_data hex_id lat lon lat_step)) = [ring] /\
    List.length ring = 6%nat /\
    nth_error ring 6 = None /\
    ~ closed_ring_of_seven ring.
Proof.
  exists (create_hexagon lat lon (lat_step / 2)).
  pose proof (create_hexagon_length lat lon (lat_step / 2)) as L.
  split; [reflexivity |]. split; [exact L |]. split.
  - apply nth_error_None. lia.
  - intros [L7 _]. lia.
Qed.

End GridLoop.
(* ================================================================= *)
(** * The first cell of a run *)

Section FirstCell.
Import Generator Spec.

(** With a positive step and a non-empty range, [np.arange] starts with
    [start]. *)
Lemma np_arange_first (start stop step : Q) :
  0 < step -> start < stop ->
  exists rest, np_arange start stop step = inr (Qred start :: rest).
Proof.
  intros Hstep Hrange. unfold np_arange.
  destruct (Qeq_bool step 0) eqn:E.
  - apply Qeq_bool_eq in E. exfalso. lra.
  - assert (0 < (stop - start) / step) as Hpos
        by (apply Qlt_shift_div_l; lra).
    pose proof (Qle_ceiling ((stop - start) / step)) as Hceil.
    assert (0 < Qceiling ((stop - start) / step))%Z as Hn.
    { rewrite Zlt_Qlt. change (inject_Z 0) with 0. lra. }
    destruct (Z.to_nat (Qceiling ((stop - start) / step))) as [| n] eqn:En;
      [lia |].
    cbn [seq map]. eexists. f_equal. f_equal.
    apply Qred_complete. cbn [Z.of_nat]. change (inject_Z 0) with 0. lra.
Qed.

Context `{NumPy}.

(** A run with a positive resolution starts at the south-west corner of
    the bounding box, with the id 0. *)
Lemma run_starts_at_south_west_corner (resolution_km : Q) (w : World) :
  0 < resolution_km ->
  0 < np_cos (np_radians ((6.0 + 37.0) / 2)) ->
  exists rest,
    result (create_india_hexagons resolution_km) w
    = inr (hexagon_data 0 6 68 (resolution_km / 111.0) :: rest).
Proof.
  intros Hres Hcos. rewrite create_india_hexagons_result. cbv zeta.
  set (lat_step := resolution_km / 111.0).
  set (lon_step := resolution_km / _).
  assert (0 < lat_step) by (apply Qlt_shift_div_l; lra).
  assert (0 < lon_step) by (apply Qlt_shift_div_l; lra).
  destruct (np_arange_first 6.0 (37.0 + lat_step) lat_step) as [lats ->];
    [assumption | lra |].
  destruct (np_arange_first 68.0 (97.0 + lon_step) lon_step) as [lons ->];
    [assumption | lra |].
  unfold row_major_cells. cbn [list_prod map app number_from].
  eexists. reflexivity.
Qed.

(** C5, as the code has it: at 50 km the latitude step is 0.4505 to four
    decimals, the first cell has the id 0 and the centre (6.0, 68.0), and
    its wind potential is round(5.5 * 1.0 * 1.0, 2) = 5.5: the point is 2
    degrees from the reference latitude 8 and 4 degrees from the reference
    longitude 72, inside the 5-degree band. *)
Theorem first_cell_at_resolution_50 (w : World) :
  0 < np_cos (np_radians ((6.0 + 37.0) / 2)) ->
  Qabs (50 / 111.0 - 0.4505) < 0.0001 /\
  exists first rest,
    result (create_india_hexagons 50) w = inr (first :: rest) /\
    hex_id (properties first) = 0%Z /\
    center_lat (properties first) == 6.0 /\
    center_lon (properties first) == 68.0 /\
    wind_potential (properties first) == py_round (5.5 * 1.0 * 1.0) 2 /\
    wind_potential (properties first) == 5.5.
Proof.
  intros Hcos. split; [vm_compute; reflexivity |].
  destruct (run_starts_at_south_west_corner 50 w) as [rest ->];
    [reflexivity | assumption |].
  eexists _, rest. split; [reflexivity |].
  unfold hexagon_data.
  cbv beta iota zeta delta
      [properties hex_id center_lat center_lon wind_potential].
  repeat split; vm_compute; reflexivity.
Qed.

End FirstCell.

(* ================================================================= *)
(** * Validation: fix_hexagons.py against create_india_hexagons.py *)

Section Loops.

(** Invariant rule for a loop whose body never raises. *)
Lemma for_each_invariant {A S : Type} (I : S -> Prop) (xs : list A)
      (body : S -> A -> Py S) :
  (forall s x w, I s -> exists s' w', body s x w = (inr s', w') /\ I s') ->
  forall s w, I s -> exists s' w', for_each xs body s w = (inr s', w') /\ I s'.
Proof.
  intros Hbody. induction xs as [| x xs IH]; intros s w Hs.
  - exists s, w. split; [reflexivity | assumption].
  - cbn [for_each]. unfold bind.
    destruct (Hbody s x w Hs) as (s1 & w1 & -> & Hs1).
    apply IH. assumption.
Qed.

End Loops.

Section Validation.
Import FixHexagons Generator Spec.
Context `{NumPy} `{Shapely} `{PyFormat}.

(** The three ways one candidate can go. *)
Lemma hexagon_step_cases (lat hex_size : Q) (hexagons : list FixFeature)
      (hex_id : nat) (lon : Q) (w : World) :
  let ring := hex_ring lat lon hex_size in
  match Polygon ring with
  | inl e =>
      hexagon_step lat hex_size (hexagons, hex_id) lon w
      = (inr (hexagons, hex_id),
         {| stdout := stdout w
              ++ [("Error creating hexagon at " ++ format_float lat ++ ", "
                     ++ format_float lon ++ ": " ++ format_exn e)%string];
            rng_stream := rng_stream w;
            rng_drawn := rng_drawn w |})
  | inr p =>
      if is_valid p
      then hexagon_step lat hex_size (hexagons, hex_id) lon w
           = (inr (hexagons ++ [valid_feature hex_id lat lon hex_size ring],
                   S hex_id), w)
      else hexagon_step lat hex_size (hexagons, hex_id) lon w
           = (inr (hexagons, hex_id), w)
  end.
Proof.
  cbv zeta. unfold hexagon_step, try_except, bind, call, print, ret.
  destruct (Polygon (hex_ring lat lon hex_size)) as [e | p]; [reflexivity |].
  destruct (is_valid p); reflexivity.
Qed.

Lemma hexagon_step_keeps_valid (lat hex_size : Q) (st : list FixFeature * nat)
      (lon : Q) (w : World) :
  kept_valid st ->
  exists st' w', hexagon_step lat hex_size st lon w = (inr st', w') /\ kept_valid st'.
Proof.
  destruct st as [hexagons hex_id]. intros (Hall & Hid & Hids).
  cbn [fst snd] in *.
  pose proof (hexagon_step_cases lat hex_size hexagons hex_id lon w) as Hstep.
  cbv zeta in Hstep.
  destruct (Polygon (hex_ring lat lon hex_size)) as [e | p] eqn:EP.
  - eexists _, _. split; [exact Hstep |]. now repeat split.
  - destruct (is_valid p) eqn:EV.
    + eexists _, _. split; [exact Hstep |]. repeat split; cbn [fst snd].
      * apply Forall_app. split; [assumption |].
        constructor; [| constructor].
        exists (hex_ring lat lon hex_size). split; [reflexivity |].
        exists p. now split.
      * rewrite length_app. cbn. lia.
      * rewrite length_app, map_app. cbn [List.length map].
        rewrite Nat.add_1_r, seq_S, map_app, Hids. cbn. now subst hex_id.
    + eexists _, _. split; [exact Hstep |]. now repeat split.
Qed.

Lemma create_valid_hexagons_returns (w : World) :
  exists fc w',
    create_valid_hexagons w = (inr fc, w') /\ kept_valid (features fc, List.length (features fc)).
Proof.
  unfold create_valid_hexagons. cbv zeta. unfold bind at 1.
  destruct (np_arange 6.0 37.0 (0.5 * 0.866)) as [e | lats] eqn:Elats;
    [vm_compute in Elats; discriminate |].
  unfold call at 1. unfold bind at 1.
  destruct (for_each_invariant kept_valid lats
              (fun st lat =>
                 lons <- call (np_arange 68.0 97.0 0.5) ;;
                 for_each lons (hexagon_step lat 0.5) st))
    with (s := (@nil FixFeature, 0%nat)) (w := w)
    as ([fs n] & w' & -> & Hkept).
  - intros st lat w0 Hst. unfold bind, call.
    destruct (np_arange 68.0 97.0 0.5) as [e | lons] eqn:Elons;
      [vm_compute in Elons; discriminate |].
    apply for_each_invariant; [| assumption].
    intros. now apply hexagon_step_keeps_valid.
  - repeat split; constructor.
  - unfold ret. eexists _, _. split; [reflexivity |].
    cbn [features fst]. destruct Hkept as (Hall & Hn & Hids).
    now repeat split.
Qed.

(** C4: the validation that the claim describes is the one of
    [create_valid_hexagons] in fix_hexagons.py: a shapely polygon is built
    for every candidate ring; a ring whose construction raises is skipped
    after one printed line, a ring that is not valid is skipped, a valid
    ring is stored with the next id; the function never raises and every
    cell it returns passed the validation.  [create_india_hexagons] misses
    that step: whatever the validator, a run stores one cell for every
    pair of candidates that [np.arange] returns and prints its two fixed
    lines only. *)
Theorem validation_is_in_fix_hexagons_only :
  (forall lat hex_size hexagons hex_id lon w,
      let ring := hex_ring lat lon hex_size in
      match Polygon ring with
      | inl e =>
          hexagon_step lat hex_size (hexagons, hex_id) lon w
          = (inr (hexagons, hex_id),
             {| stdout := stdout w
                  ++ [("Error creating hexagon at " ++ format_float lat ++ ", "
                         ++ format_float lon ++ ": " ++ format_exn e)%string];
                rng_stream := rng_stream w;
                rng_drawn := rng_drawn w |})
      | inr p =>
          if is_valid p
          then hexagon_step lat hex_size (hexagons, hex_id) lon w
               = (inr (hexagons ++ [valid_feature hex_id lat lon hex_size ring],
                       S hex_id), w)
          else hexagon_step lat hex_size (hexagons, hex_id) lon w
               = (inr (hexagons, hex_id), w)
      end) /\
  (forall w, exists fc w',
      create_valid_hexagons w = (inr fc, w') /\
      Forall (fun f => exists ring,
                  coordinates (fix_geometry f) = [ring] /\ passed_validation ring)
             (features fc)) /\
  (forall resolution_km w hexagons,
      result (create_india_hexagons resolution_km) w = inr hexagons ->
      let lat_step := resolution_km / 111.0 in
      let lon_step :=
        resolution_km / (111.0 * np_cos (np_radians ((6.0 + 37.0) / 2))) in
      exists lats lons,
        np_arange 6.0 (37.0 + lat_step) lat_step = inr lats /\
        np_arange 68.0 (97.0 + lon_step) lon_step = inr lons /\
        hexagons = row_major_cells lats lons lat_step /\
        List.length hexagons = (List.length lats * List.length lons)%nat /\
        stdout (snd (create_india_hexagons resolution_km w))
        = stdout w
            ++ ["Creating India hexagon grid..."%string;
                ("Created " ++ str_of_nat (List.length hexagons)
                   ++ " hexagons covering India")%string]).
Proof.
  split; [exact hexagon_step_cases |]. split.
  - intros w. destruct (create_valid_hexagons_returns w) as (fc & w' & R & K).
    exists fc, w'. split; [exact R | apply K].
  - intros resolution_km w hexagons R.
    destruct (run_is_row_major _ _ _ R) as (lats & lons & El & Eo & E & Hout).
    cbv zeta. exists lats, lons.
    split; [exact El |]. split; [exact Eo |]. split; [exact E |].
    split; [| exact Hout].
    rewrite E. apply row_major_length.
Qed.

(** ** The ring of fix_hexagons.py is closed *)

Lemma hex_ring_closed (lat lon hex_size : Q) :
  let ring := hex_ring lat lon hex_size in
  closed_ring_of_seven ring \/
  (List.length ring = 6%nat /\
   fst (hd (0, 0) ring) == fst (last ring (0, 0)) /\
   snd (hd (0, 0) ring) == snd (last ring (0, 0))).
Proof.
  cbv zeta. unfold hex_ring. cbn [seq map hd last].
  match goal with
  | |- context [coord_neqb ?a ?b] => destruct (coord_neqb a b) eqn:E
  end.
  - left. split; [reflexivity |]. cbn [app nth_error fst snd].
    split; reflexivity.
  - right. split; [reflexivity |].
    unfold coord_neqb in E. apply negb_false_iff, andb_true_iff in E.
    destruct E as [E1 E2]. cbn [hd last].
    split; now apply Qeq_bool_eq.
Qed.

End Validation.
(* ================================================================= *)
(** * Every cell of a run *)

Section EveryCell.
Import Scorer Generator Spec.

(** The elements of [np.arange] with a positive step lie in
    [start, stop). *)
Lemma np_arange_bounds (start stop step : Q) (xs : list Q) (x : Q) :
  0 < step ->
  np_arange start stop step = inr xs -> In x xs -> start <= x < stop.
Proof.
  intros Hstep. unfold np_arange.
  destruct (Qeq_bool step 0); [discriminate |].
  set (ys := map _ _). intros E Hin.
  assert (xs = ys) as -> by congruence.
  apply in_map_iff in Hin.
  destruct Hin as (i & Ex & Hi). apply in_seq in Hi.
  rewrite <- Ex, Qred_correct. clear Ex.
  set (q := (stop - start) / step) in *.
  assert (0 <= inject_Z (Z.of_nat i)) as Hi0.
  { change 0 with (inject_Z 0). rewrite <- Zle_Qle. lia. }
  assert (inject_Z (Z.of_nat i) < q) as Hiq.
  { apply Qle_lt_trans with (inject_Z (Qceiling q - 1)).
    - rewrite <- Zle_Qle. lia.
    - apply Qceiling_lt. }
  assert (inject_Z (Z.of_nat i) * step < q * step) as Hlt
      by (apply Qmult_lt_compat_r; assumption).
  assert (q * step == stop - start) as Eq by (unfold q; field; lra).
  assert (0 <= inject_Z (Z.of_nat i) * step) by (apply Qmult_le_0_compat; lra).
  split; lra.
Qed.

Context `{NumPy}.

Lemma row_major_cells_In (lats lons : list Q) (lat_step : Q) (f : Feature) :
  In f (row_major_cells lats lons lat_step) ->
  exists k lat lon,
    In lat lats /\ In lon lons /\ f = hexagon_data k lat lon lat_step.
Proof.
  unfold row_major_cells. intros Hin. apply in_map_iff in Hin.
  destruct Hin as ([k [lat lon]] & <- & Hin).
  exists k, lat, lon.
  assert (In (lat, lon) (list_prod lats lons)) as Hprod.
  { clear - Hin. revert Hin. generalize 0%Z. generalize (list_prod lats lons).
    intros l. induction l as [| c l IH]; intros n Hin; [contradiction |].
    destruct Hin as [[= _ <-] | Hin]; [now left | right; eauto]. }
  apply in_prod_iff in Hprod. now repeat split.
Qed.

Hypothesis np_sqrt_nonneg : forall x, 0 <= np_sqrt x.

(** C3: the suitability score lies in [0, 100] for every cell that the
    generator builds at a latitude of its bounding box (6 to 37 degrees,
    plus one grid step of at most one degree) and the scorer then scores;
    in particular for every cell of a run at a resolution of at most
    111 km. *)
Theorem suitability_score_within_0_100 :
  (forall (hex_id : Z) (lat lon lat_step : Q),
      6 <= lat <= 38 ->
      0 <= suitability_score
             (calculate_lcoh_for_hexagon (hexagon_data hex_id lat lon lat_step))
        <= 100) /\
  (forall (resolution_km : Q) (w : World) (hexagons : list Feature) (f : Feature),
      0 < resolution_km <= 111 ->
      result (create_india_hexagons resolution_km) w = inr hexagons ->
      In f hexagons ->
      0 <= suitability_score (calculate_lcoh_for_hexagon f) <= 100).
Proof.
  split; [intros; now apply (generated_cell_score_range np_sqrt_nonneg) |].
  intros resolution_km w hexagons f [Hpos Hmax].
  rewrite create_india_hexagons_result. cbv zeta.
  set (lat_step := resolution_km / 111.0).
  destruct (np_arange 6.0 _ _) as [e | lats] eqn:Elats; [discriminate |].
  destruct (np_arange 68.0 _ _) as [e | lons]; [discriminate |].
  intros [= <-] Hin.
  destruct (row_major_cells_In _ _ _ _ Hin) as (k & lat & lon & Hlat & _ & ->).
  assert (0 < lat_step) as Hstep by (apply Qlt_shift_div_l; lra).
  assert (lat_step <= 1) as Hstep1 by (apply Qle_shift_div_r; lra).
  pose proof (np_arange_bounds _ _ _ _ _ Hstep Elats Hlat) as [Hlo Hhi].
  apply (generated_cell_score_range np_sqrt_nonneg). split; lra.
Qed.

End EveryCell.
(* ================================================================= *)
(** * Runs of the model on the reference kernels *)

Section ReferenceRuns.
Import Reference Scorer Generator FixHexagons Spec.

Lemma ref_sqrt_nonneg (x : Q) : 0 <= ref_sqrt x.
Proof.
  unfold ref_sqrt. destruct (Qle_bool x 0); [apply Qle_refl |].
  rewrite Qred_correct.
  apply Qle_shift_div_l.
  - change 0 with (inject_Z 0). rewrite <- Zlt_Qlt. lia.
  - rewrite Qmult_0_l. change 0 with (inject_Z 0). rewrite <- Zle_Qle.
    apply Z.sqrt_nonneg.
Qed.

Lemma ref_cos_mid_latitude_positive :
  0 < np_cos (np_radians ((6.0 + 37.0) / 2)).
Proof. vm_compute. reflexivity. Qed.

(** ** The examples of the specification *)

Example water_cost_of_high : calculate_water_cost "High" = 0.5.
Proof. reflexivity. Qed.

Example transport_cost_at_mumbai :
  calculate_transport_cost 19.0760 72.8777 == 0.
Proof. vm_compute. reflexivity. Qed.

Example wind_potential_at_south_west_corner :
  calculate_wind_potential 6.0 68.0 == 5.5.
Proof. vm_compute. reflexivity. Qed.

Example wind_potential_inland :
  calculate_wind_potential 33.0 90.0 == py_round (4.0 * 1.0 * 1.0) 2.
Proof. vm_compute. reflexivity. Qed.

Example first_cell_scored :
  let d := calculate_lcoh_for_hexagon (hexagon_data 0 6 68 (50 / 111.0)) in
  wind_cost d == 168.75 /\ solar_cost d == 159.09 /\ water_cost d == 2.5 /\
  infrastructure_cost d == 1.0 /\ electrolyzer_cost d == 1.2 /\
  transport_cost d == 1.97 /\ suitability_score d == 61.8.
Proof. vm_compute. repeat split. Qed.

(** ** Counterexamples *)

(** C1 fails on the first cell of the default run: its stored total is
    169.63 and the weighted sum of its stored components is 169.624. *)
Lemma stored_total_differs_from_stored_sum :
  let d := calculate_lcoh_for_hexagon (hexagon_data 0 6 68 (50 / 111.0)) in
  total_lcoh d == 169.63 /\
  weighted_sum_of_stored d == 169.624 /\
  ~ Qabs (total_lcoh d - weighted_sum_of_stored d) <= (1 # 1000000000).
Proof.
  cbv zeta. split; [vm_compute; reflexivity |].
  split; [vm_compute; reflexivity |].
  vm_compute. intros Hle. apply Hle. reflexivity.
Qed.

(** C5 fails on its last part: the first cell of the 50 km run does not
    have the wind potential round(4.0 * 1.0 * 1.0, 2). *)
Lemma first_cell_wind_potential_is_not_4 :
  ~ (exists first rest,
        result (create_india_hexagons 50) (world_with 0) = inr (first :: rest) /\
        wind_potential (properties first) == py_round (4.0 * 1.0 * 1.0) 2).
Proof.
  intros (first & rest & R & W).
  destruct (run_starts_at_south_west_corner 50 (world_with 0)) as [rest' R'];
    [reflexivity | exact ref_cos_mid_latitude_positive |].
  rewrite R' in R. injection R as <- _.
  unfold hexagon_data in W.
  cbv beta iota zeta delta [properties wind_potential] in W.
  vm_compute in W. discriminate W.
Qed.

(** ** The sibling paths on the reference kernels *)

(** The ring of fix_hexagons.py has seven vertices, the last equal to the
    first. *)
Lemma hex_ring_reference_closed :
  closed_ring_of_seven (hex_ring 6 68 0.5).
Proof.
  destruct (hex_ring_closed 6 68 0.5) as [C | (L & _)]; [exact C |].
  vm_compute in L. discriminate L.
Qed.

(** [add_lcoh_data] of fix_hexagons.py, unlike the generator, depends on
    the state of the random generator. *)
Lemma add_lcoh_data_depends_on_random_state :
  let hexagons :=
    {| collection_type := "FeatureCollection";
       features := [valid_feature 0 6 68 0.5 (hex_ring 6 68 0.5)] |} in
  result (add_lcoh_data hexagons) (world_with 0.5)
  <> result (add_lcoh_data hexagons) (world_with 0.75).
Proof.
  cbv zeta. vm_compute. intros E. discriminate E.
Qed.

(** ** Witnesses *)

Lemma suitability_score_within_0_100_witness :
  0 <= suitability_score
         (calculate_lcoh_for_hexagon (hexagon_data 0 6 68 (50 / 111.0)))
    <= 100.
Proof.
  apply (proj1 (@suitability_score_within_0_100 ref_numpy ref_sqrt_nonneg)
           0%Z 6 68 (50 / 111.0)).
  split; discriminate.
Defined.

Lemma first_cell_at_resolution_50_witness :
  exists first rest,
    result (create_india_hexagons 50) (world_with 0) = inr (first :: rest) /\
    hex_id (properties first) = 0%Z /\
    center_lat (properties first) == 6.0 /\
    center_lon (properties first) == 68.0 /\
    wind_potential (properties first) == py_round (5.5 * 1.0 * 1.0) 2 /\
    wind_potential (properties first) == 5.5.
Proof.
  apply (first_cell_at_resolution_50 (world_with 0)).
  vm_compute. reflexivity.
Defined.

Lemma hex_ids_sequential_row_major_witness :
  let lat_step := 50 / 111.0 in
  let lon_step := 50 / (111.0 * np_cos (np_radians ((6.0 + 37.0) / 2))) in
  exists rest lats lons,
    let hexagons := hexagon_data 0 6 68 lat_step :: rest in
    result (create_india_hexagons 50) (world_with 0) = inr hexagons /\
    np_arange 6.0 (37.0 + lat_step) lat_step = inr lats /\
    np_arange 68.0 (97.0 + lon_step) lon_step = inr lons /\
    hexagons = row_major_cells lats lons lat_step /\
    List.length hexagons = (List.length lats * List.length lons)%nat /\
    (forall i j lat lon,
        nth_error lats i = Some lat -> nth_error lons j = Some lon ->
        nth_error hexagons (i * List.length lons + j)
        = Some (hexagon_data (Z.of_nat (i * List.length lons + j))
                  lat lon lat_step)) /\
    map (fun f => hex_id (properties f)) hexagons
    = map Z.of_nat (seq 0 (List.length hexagons)) /\
    NoDup (map (fun f => hex_id (properties f)) hexagons).
Proof.
  cbv zeta.
  destruct (run_starts_at_south_west_corner 50 (world_with 0)) as [rest R];
    [reflexivity | exact ref_cos_mid_latitude_positive |].
  destruct (hex_ids_sequential_row_major 50 (world_with 0) _ R)
    as (lats & lons & Hrest).
  exists rest, lats, lons. split; [exact R | exact Hrest].
Defined.

Lemma validation_is_in_fix_hexagons_only_witness :
  let lat_step := 50 / 111.0 in
  let lon_step := 50 / (111.0 * np_cos (np_radians ((6.0 + 37.0) / 2))) in
  exists rest lats lons,
    let hexagons := hexagon_data 0 6 68 lat_step :: rest in
    result (create_india_hexagons 50) (world_with 0) = inr hexagons /\
    np_arange 6.0 (37.0 + lat_step) lat_step = inr lats /\
    np_arange 68.0 (97.0 + lon_step) lon_step = inr lons /\
    hexagons = row_major_cells lats lons lat_step /\
    List.length hexagons = (List.length lats * List.length lons)%nat /\
    stdout (snd (create_india_hexagons 50 (world_with 0)))
    = stdout (world_with 0)
        ++ ["Creating India hexagon grid..."%string;
            ("Created " ++ str_of_nat (List.length hexagons)
               ++ " hexagons covering India")%string].
Proof.
  cbv zeta.
  destruct (run_starts_at_south_west_corner 50 (world_with 0)) as [rest R];
    [reflexivity | exact ref_cos_mid_latitude_positive |].
  destruct (proj2 (proj2 (@validation_is_in_fix_hexagons_only
                            ref_numpy reject_all ref_format))
              50 (world_with 0) _ R)
    as (lats & lons & Hrest).
  exists rest, lats, lons. split; [exact R | exact Hrest].
Defined.

End ReferenceRuns.
(* ================================================================= *)
(** * Further properties of the cost scorer *)

Section ScorerMonotonicity.
Import Scorer.

(** X1: above an elevation of -10000 m the wind cost never rises with the
    wind potential and never falls with the elevation. *)
Theorem wind_cost_monotone (wind1 wind2 : Q) (elevation1 elevation2 : Z) :
  (-10000 <= elevation1)%Z -> wind1 <= wind2 -> (elevation1 <= elevation2)%Z ->
  calculate_wind_energy_cost wind2 elevation1
  <= calculate_wind_energy_cost wind1 elevation1 /\
  calculate_wind_energy_cost wind1 elevation1
  <= calculate_wind_energy_cost wind1 elevation2.
Proof.
  intros Hlow Hwind Helev.
  rewrite Zle_Qle in Hlow, Helev.
  change (inject_Z (-10000)) with (-10000 # 1) in Hlow.
  unfold calculate_wind_energy_cost.
  set (e1 := inject_Z elevation1) in *. set (e2 := inject_Z elevation2) in *.
  split; repeat qcase; try qlra; exfalso; lra.
Qed.

Lemma wind_cost_monotone_witness :
  calculate_wind_energy_cost 6.5 100 <= calculate_wind_energy_cost 4.4 100 /\
  calculate_wind_energy_cost 4.4 100 <= calculate_wind_energy_cost 4.4 3000.
Proof.
  apply (wind_cost_monotone 4.4 6.5 100 3000); [lia | discriminate | lia].
Defined.

(** X2: the solar cost never rises with the solar potential, and it stays
    between 35/0.22 and 35/0.15. *)
Theorem solar_cost_monotone_and_bounded (solar1 solar2 : Q) :
  solar1 <= solar2 ->
  calculate_solar_energy_cost solar2 <= calculate_solar_energy_cost solar1 /\
  35.0 / 0.22 <= calculate_solar_energy_cost solar1 <= 35.0 / 0.15.
Proof.
  intros Hsolar. unfold calculate_solar_energy_cost.
  repeat split; repeat qcase; try qclosed; exfalso; lra.
Qed.

Lemma solar_cost_monotone_and_bounded_witness :
  calculate_solar_energy_cost 7.18 <= calculate_solar_energy_cost 4.37 /\
  35.0 / 0.22 <= calculate_solar_energy_cost 4.37 <= 35.0 / 0.15.
Proof.
  apply (solar_cost_monotone_and_bounded 4.37 7.18). discriminate.
Defined.

(** X3: a higher infrastructure score never costs more, whatever integers
    the scores are (also negative ones or ones above 100). *)
Theorem infrastructure_cost_monotone (score1 score2 : Z) :
  (score1 <= score2)%Z ->
  calculate_infrastructure_cost score2 <= calculate_infrastructure_cost score1.
Proof.
  intros Hscore. unfold calculate_infrastructure_cost.
  repeat match goal with
         | |- context [(?a >=? ?b)%Z] => destruct (Z.geb_spec a b)
         end; try qclosed; exfalso; lia.
Qed.

Lemma infrastructure_cost_monotone_witness :
  calculate_infrastructure_cost 150 <= calculate_infrastructure_cost (-3).
Proof.
  apply (infrastructure_cost_monotone (-3) 150). lia.
Defined.

(** X4: with the cost fixed, more wind or more sun never lowers the
    suitability score. *)
Theorem suitability_monotone_in_renewables (lcoh wind1 wind2 solar1 solar2 : Q) :
  wind1 <= wind2 -> solar1 <= solar2 ->
  calculate_suitability_score lcoh wind1 solar1
  <= calculate_suitability_score lcoh wind2 solar2.
Proof.
  intros Hwind Hsolar. unfold calculate_suitability_score.
  apply py_round_1_mono. repeat qcase; qlra.
Qed.

Lemma suitability_monotone_in_renewables_witness :
  calculate_suitability_score 169.63 4.0 4.37
  <= calculate_suitability_score 169.63 5.5 7.18.
Proof.
  apply (suitability_monotone_in_renewables 169.63 4.0 5.5 4.37 7.18);
    discriminate.
Defined.

End ScorerMonotonicity.

Section TransportCost.
Import Scorer Facts.
Context `{NumPy}.

Lemma Qmin_cases (a b : Q) :
  Qmin a b <= a /\ Qmin a b <= b /\ (Qmin a b == a \/ Qmin a b == b).
Proof.
  split; [apply Q.le_min_l |]. split; [apply Q.le_min_r |].
  destruct (Q.min_spec a b) as [[_ E] | [_ E]]; auto.
Qed.

(** The running minimum of [calculate_transport_cost] is the distance to
    one of the five centres and at most the distance to each of them. *)
Lemma transport_cost_of_minimum (lat lon : Q) :
  (forall c, In c demand_centers ->
        calculate_transport_cost lat lon
        <= center_distance_km lat lon c / 100.0 * 0.15) /\
  (exists c, In c demand_centers /\
        calculate_transport_cost lat lon
        == center_distance_km lat lon c / 100.0 * 0.15).
Proof.
  unfold calculate_transport_cost, transport_min_distance.
  unfold demand_centers in *.
  cbv [fold_left py_min finite_value].
  set (c1 := (19.0760, 72.8777, "Mumbai"%string)).
  set (c2 := (28.7041, 77.1025, "Delhi"%string)).
  set (c3 := (12.9716, 77.5946, "Bangalore"%string)).
  set (c4 := (13.0827, 80.2707, "Chennai"%string)).
  set (c5 := (22.5726, 88.3639, "Kolkata"%string)).
  change (np_sqrt ((lat - 19.0760) ^ 2 + (lon - 72.8777) ^ 2) * 111.0)
    with (center_distance_km lat lon c1).
  change (np_sqrt ((lat - 28.7041) ^ 2 + (lon - 77.1025) ^ 2) * 111.0)
    with (center_distance_km lat lon c2).
  change (np_sqrt ((lat - 12.9716) ^ 2 + (lon - 77.5946) ^ 2) * 111.0)
    with (center_distance_km lat lon c3).
  change (np_sqrt ((lat - 13.0827) ^ 2 + (lon - 80.2707) ^ 2) * 111.0)
    with (center_distance_km lat lon c4).
  change (np_sqrt ((lat - 22.5726) ^ 2 + (lon - 88.3639) ^ 2) * 111.0)
    with (center_distance_km lat lon c5).
  set (d1 := center_distance_km lat lon c1).
  set (d2 := center_distance_km lat lon c2).
  set (d3 := center_distance_km lat lon c3).
  set (d4 := center_distance_km lat lon c4).
  set (d5 := center_distance_km lat lon c5).
  destruct (Qmin_cases d1 d2) as (A1 & A2 & A3).
  set (m2 := Qmin d1 d2) in *.
  destruct (Qmin_cases m2 d3) as (B1 & B2 & B3).
  set (m3 := Qmin m2 d3) in *.
  destruct (Qmin_cases m3 d4) as (C1 & C2 & C3).
  set (m4 := Qmin m3 d4) in *.
  destruct (Qmin_cases m4 d5) as (D1 & D2 & D3).
  set (m5 := Qmin m4 d5) in *.
  assert (center_distance_km lat lon c1 == d1 /\
          center_distance_km lat lon c2 == d2 /\
          center_distance_km lat lon c3 == d3 /\
          center_distance_km lat lon c4 == d4 /\
          center_distance_km lat lon c5 == d5) as (E1 & E2 & E3 & E4 & E5)
      by (repeat split; reflexivity).
  clearbody d1 d2 d3 d4 d5.
  split.
  - intros c Hc.
    cbn [In] in Hc.
    destruct Hc as [<- | [<- | [<- | [<- | [<- | []]]]]];
      qlra.
  - assert (m5 == d1 \/ m5 == d2 \/ m5 == d3 \/ m5 == d4 \/ m5 == d5) as Hm.
    { destruct D3 as [D3 | D3]; [| auto 6].
      destruct C3 as [C3 | C3]; [| right; right; right; left; lra].
      destruct B3 as [B3 | B3]; [| right; right; left; lra].
      destruct A3 as [A3 | A3]; [left | right; left]; lra. }
    destruct Hm as [E | [E | [E | [E | E]]]];
      [exists c1 | exists c2 | exists c3 | exists c4 | exists c5];
      (split; [cbn; auto 6 | qlra]).
Qed.

(** X5: the transport cost is the cost of the way to the nearest of the
    five demand centres: it is the cost to one of them and at most the
    cost to each of them. *)
Theorem transport_cost_is_to_nearest_center (lat lon : Q) :
  (exists nearest,
      In nearest demand_centers /\
      calculate_transport_cost lat lon
      == center_distance_km lat lon nearest / 100.0 * 0.15 /\
      forall c, In c demand_centers ->
           center_distance_km lat lon nearest <= center_distance_km lat lon c).
Proof.
  destruct (transport_cost_of_minimum lat lon) as [Hle (nearest & Hin & E)].
  exists nearest. split; [exact Hin |]. split; [exact E |].
  intros c Hc. specialize (Hle c Hc). rewrite E in Hle.
  revert Hle. qinv_consts. intros Hle. lra.
Qed.

(** X6: when the square root is non-negative and vanishes at zero, the
    transport cost is never negative and is zero at the coordinates of
    each demand centre. *)
Theorem transport_cost_zero_at_centers :
  (forall x, 0 <= np_sqrt x) -> (forall x, x == 0 -> np_sqrt x == 0) ->
  (forall lat lon, 0 <= calculate_transport_cost lat lon) /\
  (forall c, In c demand_centers ->
        calculate_transport_cost (fst (fst c)) (snd (fst c)) == 0).
Proof.
  intros Hnonneg Hzero. split.
  - intros lat lon. now apply transport_cost_nonneg.
  - intros c Hc.
    pose proof (transport_cost_nonneg Hnonneg (fst (fst c)) (snd (fst c))) as Hlo.
    destruct (transport_cost_of_minimum (fst (fst c)) (snd (fst c)))
      as [Hle _].
    specialize (Hle c Hc).
    assert (center_distance_km (fst (fst c)) (snd (fst c)) c == 0) as E.
    { unfold center_distance_km. rewrite Hzero; [ring | ring]. }
    rewrite E in Hle. revert Hle. qinv_consts. intros Hle. lra.
Qed.

End TransportCost.

Section ScoreOfEveryHexagon.
Import Scorer Generator.
Context `{NumPy}.
Hypothesis np_sqrt_nonneg : forall x, 0 <= np_sqrt x.

Lemma unrounded_total_large (props : Properties) :
  (0 <= elevation props)%Z -> 97 < unrounded_total_lcoh props.
Proof.
  intros He. unfold unrounded_total_lcoh.
  pose proof (wind_cost_positive (wind_potential props) (elevation props) He).
  pose proof (solar_cost_at_least (solar_potential props)).
  pose proof (water_cost_at_least (water_availability props)).
  pose proof (infrastructure_cost_at_least (infrastructure_score props)).
  pose proof (transport_cost_nonneg np_sqrt_nonneg
                (center_lat props) (center_lon props)).
  unfold calculate_electrolyzer_cost. lra.
Qed.

(** Above the cost ladder only the renewable part of the score is left. *)
Lemma stored_score_formula (hexagon : Feature) :
  (0 <= elevation (properties hexagon))%Z ->
  suitability_score (calculate_lcoh_for_hexagon hexagon)
  = py_round (40 * 0.6
              + (wind_potential (properties hexagon) / 7.0
                 + solar_potential (properties hexagon) / 6.5) * 50 * 0.4) 1.
Proof.
  intros He. pose proof (unrounded_total_large _ He) as Hbig.
  rewrite stored_suitability.
  destruct (suitability_unfold (unrounded_total_lcoh (properties hexagon))
              (wind_potential (properties hexagon))
              (solar_potential (properties hexagon)))
    as (lcoh_score & -> & _ & _ & _ & _ & H40 & _).
  rewrite H40 by lra. reflexivity.
Qed.

(** X7: for every hexagon whose elevation is not negative the cost is
    above 97, far over the last threshold (6.0) of the cost ladder, so the
    stored suitability score is round(40*0.6 + renewable_score*0.4, 1): it
    depends on the wind and solar potential only, not on any cost. *)
Theorem suitability_score_ignores_cost (hexagon : Feature) :
  (0 <= elevation (properties hexagon))%Z ->
  97 < unrounded_total_lcoh (properties hexagon) /\
  suitability_score (calculate_lcoh_for_hexagon hexagon)
  = py_round (40 * 0.6
              + (wind_potential (properties hexagon) / 7.0
                 + solar_potential (properties hexagon) / 6.5) * 50 * 0.4) 1.
Proof.
  intros He. split.
  - now apply unrounded_total_large.
  - now apply stored_score_formula.
Qed.

(** X8: a cell built by the generator at a latitude between 6 and 38 has a
    suitability score between 47.2 and 77.5, so its category is
    "Moderately Suitable" or "Less Suitable": no generated cell is ever
    "Most Suitable" or "Unsuitable". *)
Theorem generated_cells_are_moderately_or_less_suitable
        (hex_id : Z) (lat lon lat_step : Q) :
  6 <= lat <= 38 ->
  let score :=
    suitability_score
      (calculate_lcoh_for_hexagon (hexagon_data hex_id lat lon lat_step)) in
  47.2 <= score <= 77.5 /\
  (categorize_suitability score = "Moderately Suitable"%string \/
   categorize_suitability score = "Less Suitable"%string).
Proof.
  intros Hlat score.
  assert (47.2 <= score <= 77.5) as Hscore.
  { subst score.
    rewrite stored_score_formula by apply elevation_estimate_nonneg.
    unfold hexagon_data.
    cbv beta iota zeta delta [properties wind_potential solar_potential].
    pose proof (wind_potential_range lat lon).
    pose proof (solar_potential_range lat lon Hlat).
    match goal with
    | |- _ <= py_round ?x 1 <= _ =>
        pose proof (py_round_1_between x 472 775) as Hround
    end.
    cbv [inject_Z] in Hround. qlra. }
  split; [exact Hscore |].
  unfold categorize_suitability. destruct Hscore.
  repeat qcase; auto; exfalso; lra.
Qed.

(** X9: the wind potential of a generated cell is at least 4.0, so the
    scorer never uses its "poor wind" capacity factor 0.12 on it: the
    wind cost is 45 over 0.35, 0.28 or 0.20, times the elevation factor. *)
Theorem generated_wind_never_in_poor_band (lat lon : Q) (elevation : Z) :
  exists capacity_factor,
    (capacity_factor = 0.35 \/ capacity_factor = 0.28
     \/ capacity_factor = 0.20) /\
    calculate_wind_energy_cost (calculate_wind_potential lat lon) elevation
    == 45.0 / capacity_factor * (1.0 + (inject_Z elevation / 1000.0) * 0.1).
Proof.
  pose proof (wind_potential_range lat lon) as [Hlo _].
  unfold calculate_wind_energy_cost.
  repeat qcase;
    [exists 0.35 | exists 0.28 | exists 0.20 | exfalso; lra];
    (split; [auto | reflexivity]).
Qed.

End ScoreOfEveryHexagon.
(* ================================================================= *)
(** * Further properties of the generator *)

(** Name every [Qmin] of the goal, innermost first, and keep that it is
    below both of its arguments. *)
Ltac qmin_facts :=
  repeat match goal with
    | |- context [Qmin ?a ?b] =>
        lazymatch a with context [Qmin _ _] => fail | _ => idtac end;
        lazymatch b with context [Qmin _ _] => fail | _ => idtac end;
        let m := fresh "m" in
        pose proof (Q.le_min_l a b); pose proof (Q.le_min_r a b);
        set (m := Qmin a b) in *; clearbody m
    end.

Section AttributeRelations.
Import Scorer Generator.

(** X10: where the water availability is "High" and where it is "Medium".
    The earlier branches shadow most of the box of the "Medium" branch
    (15 < lat < 25, 75 < lon < 85): "Medium" is only returned for
    15 < lat <= 20 with 80 <= lon < 85, and on the line lat = 20.  The
    comparisons are strict, so a point on lon = 85 is never "High". *)
Theorem water_availability_regions (lat lon : Q) :
  (calculate_water_availability lat lon = "High"%string <->
   (20 < lat < 30 /\ 70 < lon < 95 /\ ~ lon == 85)
   \/ (10 < lat < 20 /\ 70 < lon < 80)) /\
  (calculate_water_availability lat lon = "Medium"%string <->
   15 < lat <= 20 /\ 75 < lon < 85 /\ (lat == 20 \/ 80 <= lon)).
Proof.
  unfold calculate_water_availability.
  repeat (qcase; cbn [andb]);
    (split; (split;
     [ intros Hres; try discriminate Hres;
       try (left; repeat split; try lra; intros ?; lra);
       try (right; repeat split; lra);
       try (repeat split; try lra; (left; lra) || (right; lra))
     | intros Hr; try reflexivity; exfalso;
       repeat match goal with
              | Hd : _ \/ _ |- _ => destruct Hd
              | Hc : _ /\ _ |- _ => destruct Hc
              end; try lra;
       match goal with Hn : ~ _ |- _ => apply Hn end; lra ])).
Qed.

(** X11: the elevation estimate agrees with the region and climate
    ladders: it is 3000 exactly where the region is "Northern Mountains"
    (lat > 30) and 500 exactly where the climate zone is
    "Tropical Monsoon" (lat < 20). *)
Theorem elevation_agrees_with_region_and_climate (lat lon : Q) :
  (get_elevation_estimate lat lon = 3000%Z <-> 30 < lat) /\
  (get_india_region lat lon = "Northern Mountains"%string <-> 30 < lat) /\
  (get_elevation_estimate lat lon = 500%Z <-> lat < 20) /\
  (get_climate_zone lat lon = "Tropical Monsoon"%string <-> lat < 20).
Proof.
  unfold get_elevation_estimate, get_india_region, get_climate_zone.
  repeat (qcase; cbn [andb]);
    repeat split; intros; try reflexivity; try discriminate; try lra;
    exfalso; lra.
Qed.

Context `{NumPy}.

(** X12: a cell whose population density is "Very High" (within 0.5
    degrees of one of the five urban centres) has the infrastructure score
    90 and therefore the lowest infrastructure cost, 0.3. *)
Theorem very_high_density_has_top_infrastructure (lat lon : Q) :
  get_population_density lat lon = "Very High"%string ->
  calculate_infrastructure_score lat lon = 90%Z /\
  calculate_infrastructure_cost (calculate_infrastructure_score lat lon) = 0.3.
Proof.
  unfold get_population_density.
  destruct (existsb _ urban_centers) eqn:Hnear.
  - intros _.
    assert (calculate_infrastructure_score lat lon = 90%Z) as E.
    { unfold calculate_infrastructure_score, major_cities.
      unfold urban_centers in Hnear. cbv [existsb] in Hnear.
      cbv [fold_left py_min].
      repeat match type of Hnear with
             | (_ || _)%bool = true => apply orb_true_iff in Hnear
             | _ \/ _ => destruct Hnear as [Hnear | Hnear]
             end; try discriminate Hnear;
        apply Qltb_true in Hnear;
        qmin_facts;
        (destruct (eltb _ 1.0) eqn:Elt; [reflexivity |]);
        cbv [eltb] in Elt; apply Qltb_false in Elt; exfalso; lra. }
    rewrite E. split; reflexivity.
  - repeat (qcase; cbn [andb]); discriminate.
Qed.

End AttributeRelations.

Section RunShape.
Import Generator.

Lemma np_arange_length (start stop step : Q) (xs : list Q) :
  np_arange start stop step = inr xs ->
  List.length xs = Z.to_nat (Qceiling ((stop - start) / step)).
Proof.
  unfold np_arange. destruct (Qeq_bool step 0); [discriminate |].
  set (ys := map _ _). intros E. assert (xs = ys) as -> by congruence.
  unfold ys. now rewrite length_map, length_seq.
Qed.

Lemma np_arange_positive_step (start stop step : Q) :
  0 < step -> exists xs, np_arange start stop step = inr xs.
Proof.
  intros Hstep. unfold np_arange.
  destruct (Qeq_bool step 0) eqn:E; [| eexists; reflexivity].
  apply Qeq_bool_eq in E. exfalso. lra.
Qed.

(** More than one step of room gives at least two elements. *)
Lemma np_arange_two (start stop step : Q) (xs : list Q) :
  0 < step -> start + step < stop ->
  np_arange start stop step = inr xs -> (2 <= List.length xs)%nat.
Proof.
  intros Hstep Hroom E. rewrite (np_arange_length _ _ _ _ E).
  set (q := (stop - start) / step).
  assert (1 < q) as Hq.
  { unfold q. apply Qlt_shift_div_l; [assumption | lra]. }
  pose proof (Qle_ceiling q) as Hceil.
  assert (1 < Qceiling q)%Z as Hz.
  { rewrite Zlt_Qlt. change (inject_Z 1) with 1. lra. }
  lia.
Qed.


Context `{NumPy}.

(** X13: for a resolution of at least 1 km the centre of every cell of a
    run lies in the bounding box extended by less than two grid steps to
    the north and to the east, and never south or west of its corner. *)
Theorem cell_centers_within_extended_box (resolution_km : Q) (w : World)
        (hexagons : list Feature) (f : Feature) :
  1 <= resolution_km ->
  0 < np_cos (np_radians ((6.0 + 37.0) / 2)) ->
  result (create_india_hexagons resolution_km) w = inr hexagons ->
  In f hexagons ->
  6 <= center_lat (properties f) < 37 + 2 * (resolution_km / 111.0) /\
  68 <= center_lon (properties f)
  < 97 + 2 * (resolution_km
              / (111.0 * np_cos (np_radians ((6.0 + 37.0) / 2)))).
Proof.
  intros Hres Hcos. rewrite create_india_hexagons_result. cbv zeta.
  set (lat_step := resolution_km / 111.0).
  set (lon_step := resolution_km / _).
  assert (0 < lat_step) as Hlat_step by (apply Qlt_shift_div_l; lra).
  assert (0 < lon_step) as Hlon_step by (apply Qlt_shift_div_l; lra).
  destruct (np_arange 6.0 _ _) as [e | lats] eqn:Elats; [discriminate |].
  destruct (np_arange 68.0 _ _) as [e | lons] eqn:Elons; [discriminate |].
  intros [= <-] Hin.
  destruct (row_major_cells_In _ _ _ _ Hin)
    as (k & lat & lon & Hlat & Hlon & ->).
  unfold hexagon_data.
  cbv beta iota zeta delta [properties center_lat center_lon].
  pose proof (np_arange_bounds _ _ _ _ _ Hlat_step Elats Hlat).
  pose proof (np_arange_bounds _ _ _ _ _ Hlon_step Elons Hlon).
  split; split; lra.
Qed.

(** X14: for a resolution between 10 and 1000 km the run does not raise:
    it returns at least four cells, draws no random number and prints
    exactly its two lines, the second with the number of cells. *)
Theorem positive_resolution_run (resolution_km : Q) (w : World) :
  10 <= resolution_km <= 1000 ->
  0 < np_cos (np_radians ((6.0 + 37.0) / 2)) ->
  exists hexagons,
    create_india_hexagons resolution_km w
    = (inr hexagons,
       {| stdout := stdout w
            ++ ["Creating India hexagon grid..."%string;
                ("Created " ++ str_of_nat (List.length hexagons)
                   ++ " hexagons covering India")%string];
          rng_stream := rng_stream w;
          rng_drawn := rng_drawn w |}) /\
    (4 <= List.length hexagons)%nat.
Proof.
  intros [Hres _] Hcos.
  unfold create_india_hexagons, bind, call, print, ret. cbv zeta.
  set (lat_step := resolution_km / 111.0).
  set (lon_step := resolution_km / _).
  assert (0 < lat_step) as Hlat by (apply Qlt_shift_div_l; lra).
  assert (0 < lon_step) as Hlon by (apply Qlt_shift_div_l; lra).
  destruct (np_arange_positive_step 6.0 (37.0 + lat_step) lat_step Hlat)
    as [lats Elats].
  destruct (np_arange_positive_step 68.0 (97.0 + lon_step) lon_step Hlon)
    as [lons Elons].
  rewrite Elats, Elons.
  assert (6.0 + lat_step < 37.0 + lat_step) as Rlat by lra.
  assert (68.0 + lon_step < 97.0 + lon_step) as Rlon by lra.
  pose proof (np_arange_two _ _ _ _ Hlat Rlat Elats) as Hl2.
  pose proof (np_arange_two _ _ _ _ Hlon Rlon Elons) as Ho2.
  rewrite grid_loop_spec. cbn [app stdout rng_stream rng_drawn].
  eexists. split.
  - rewrite <- app_assoc. reflexivity.
  - rewrite length_map.
    rewrite <- (length_map fst), number_from_ids, length_map, length_seq.
    rewrite length_prod. nia.
Qed.


End RunShape.
(* ================================================================= *)
(** * Further properties of fix_hexagons.py *)

Section ValidGrid.
Import FixHexagons Facts.
Context `{NumPy} `{Shapely} `{PyFormat}.

Lemma printed_nothing (w : World) : printed w [] = w.
Proof. destruct w. unfold printed. cbn. now rewrite app_nil_r. Qed.

Lemma printed_more (w : World) (a b : list string) :
  printed (printed w a) b = printed w (a ++ b).
Proof. unfold printed. cbn. now rewrite app_assoc. Qed.

Lemma number_nat_from_app (n : nat) (a b : list (Q * Q)) :
  number_nat_from n (a ++ b)
  = number_nat_from n a ++ number_nat_from (n + List.length a) b.
Proof.
  revert n. induction a as [| c a IH]; intros n.
  - cbn. now rewrite Nat.add_0_r.
  - cbn [app number_nat_from List.length]. rewrite IH.
    now rewrite Nat.add_succ_r.
Qed.

Lemma number_nat_from_length (n : nat) (l : list (Q * Q)) :
  List.length (number_nat_from n l) = List.length l.
Proof.
  revert n. induction l as [| c l IH]; intros n; cbn; [| rewrite IH];
    reflexivity.
Qed.

Lemma number_nat_from_ids (n : nat) (l : list (Q * Q)) :
  map fst (number_nat_from n l) = seq n (List.length l).
Proof.
  revert n. induction l as [| c l IH]; intros n; cbn; [| rewrite IH];
    reflexivity.
Qed.

Lemma cells_from_app (n : nat) (hex_size : Q) (a b : list (Q * Q)) :
  cells_from n hex_size (a ++ b)
  = cells_from n hex_size a
      ++ cells_from (n + accepted_count hex_size a) hex_size b.
Proof.
  unfold cells_from, accepted_count.
  now rewrite filter_app, number_nat_from_app, map_app.
Qed.

Lemma inner_valid_loop (lat hex_size : Q) (lons : list Q)
      (hexagons : list FixFeature) (n : nat) (w : World) :
  for_each lons (hexagon_step lat hex_size) (hexagons, n) w
  = (inr (hexagons ++ cells_from n hex_size (map (pair lat) lons),
          (n + accepted_count hex_size (map (pair lat) lons))%nat),
     printed w (error_lines hex_size (map (pair lat) lons))).
Proof.
  revert hexagons n w.
  induction lons as [| lon lons IH]; intros hexagons n w.
  - cbn. unfold ret. now rewrite app_nil_r, Nat.add_0_r, printed_nothing.
  - cbn [for_each]. unfold bind.
    pose proof (hexagon_step_cases lat hex_size hexagons n lon w) as Hstep.
    cbv zeta in Hstep.
    unfold cells_from, accepted_count, error_lines in *.
    cbn [map filter flat_map].
    assert (accepted (hex_ring lat lon hex_size)
            = match Polygon (hex_ring lat lon hex_size) with
              | inl _ => false
              | inr p => is_valid p
              end) as Hacc by reflexivity.
    destruct (Polygon (hex_ring lat lon hex_size)) as [e | p];
      rewrite Hacc; clear Hacc.
    + rewrite Hstep, IH.
      match goal with
      | |- context [{| stdout := stdout w ++ ?l; rng_stream := rng_stream w;
                       rng_drawn := rng_drawn w |}] =>
          change {| stdout := stdout w ++ l; rng_stream := rng_stream w;
                    rng_drawn := rng_drawn w |} with (printed w l)
      end.
      rewrite printed_more. reflexivity.
    + destruct (is_valid p).
      * rewrite Hstep, IH. cbn [number_nat_from map List.length app].
        rewrite <- app_assoc. cbn [app].
        now rewrite Nat.add_succ_r.
      * rewrite Hstep, IH. reflexivity.
Qed.

Lemma outer_valid_loop (hex_size : Q) (lats lons : list Q)
      (hexagons : list FixFeature) (n : nat) (w : World) :
  for_each lats
    (fun st lat =>
       lons' <- call (inr lons) ;;
       for_each lons' (hexagon_step lat hex_size) st)
    (hexagons, n) w
  = (inr (hexagons ++ cells_from n hex_size (list_prod lats lons),
          (n + accepted_count hex_size (list_prod lats lons))%nat),
     printed w (error_lines hex_size (list_prod lats lons))).
Proof.
  revert hexagons n w.
  induction lats as [| lat lats IH]; intros hexagons n w.
  - cbn. unfold ret. now rewrite app_nil_r, Nat.add_0_r, printed_nothing.
  - cbn [for_each list_prod]. unfold bind at 1. unfold bind at 1, call at 1.
    rewrite inner_valid_loop, IH.
    rewrite cells_from_app, printed_more, <- app_assoc.
    unfold error_lines, accepted_count.
    rewrite flat_map_app, filter_app, length_app.
    now rewrite Nat.add_assoc.
Qed.

(** The whole run, as one equation. *)
Lemma create_valid_hexagons_run (w : World) :
  exists lats lons,
    np_arange 6.0 37.0 (0.5 * 0.866) = inr lats /\
    np_arange 68.0 97.0 0.5 = inr lons /\
    create_valid_hexagons w
    = (inr {| collection_type := "FeatureCollection";
              features := kept_cells 0.5 (list_prod lats lons) |},
       printed w (error_lines 0.5 (list_prod lats lons))).
Proof.
  destruct (np_arange 6.0 37.0 (0.5 * 0.866)) as [e | lats] eqn:Elats;
    [vm_compute in Elats; discriminate |].
  destruct (np_arange 68.0 97.0 0.5) as [e | lons] eqn:Elons;
    [vm_compute in Elons; discriminate |].
  exists lats, lons. split; [reflexivity |]. split; [reflexivity |].
  unfold create_valid_hexagons. cbv zeta.
  unfold bind at 1. rewrite Elats. unfold call at 1.
  unfold bind at 1. rewrite Elons.
  rewrite outer_valid_loop. unfold ret. reflexivity.
Qed.

(** X16: [create_valid_hexagons] never raises, and it returns exactly the
    candidates whose ring shapely builds and finds valid, in the row-major
    order of the grid, with the ids hex_0, hex_1, ... given without a
    gap: a discarded candidate does not use up an id. *)
Theorem create_valid_hexagons_keeps_accepted_candidates (w : World) :
  exists lats lons fc w',
    np_arange 6.0 37.0 (0.5 * 0.866) = inr lats /\
    np_arange 68.0 97.0 0.5 = inr lons /\
    create_valid_hexagons w = (inr fc, w') /\
    features fc = kept_cells 0.5 (list_prod lats lons) /\
    map (fun f => id (fix_properties f)) (features fc)
    = map (fun k => ("hex_" ++ str_of_nat k)%string)
          (seq 0 (List.length (features fc))) /\
    (List.length (features fc) <= List.length lats * List.length lons)%nat.
Proof.
  destruct (create_valid_hexagons_run w) as (lats & lons & El & Eo & ->).
  eexists lats, lons, _, _. split; [exact El |]. split; [exact Eo |].
  split; [reflexivity |]. cbn [features]. split; [reflexivity |].
  unfold kept_cells. split.
  - rewrite length_map, number_nat_from_length, map_map.
    rewrite <- (number_nat_from_ids 0), map_map.
    apply map_ext. intros [k [lat lon]]. reflexivity.
  - rewrite length_map, number_nat_from_length, <- length_prod.
    apply filter_length_le.
Qed.

(** X17: what [create_valid_hexagons] prints is exactly one line for each
    candidate whose ring makes the shapely constructor raise, in grid
    order; a candidate rejected as not valid leaves no trace.  If the
    constructor never raises, nothing is printed at all.  No random
    number is drawn. *)
Theorem create_valid_hexagons_log (w : World) :
  exists lats lons,
    np_arange 6.0 37.0 (0.5 * 0.866) = inr lats /\
    np_arange 68.0 97.0 0.5 = inr lons /\
    stdout (snd (create_valid_hexagons w))
    = stdout w ++ error_lines 0.5 (list_prod lats lons) /\
    rng_drawn (snd (create_valid_hexagons w)) = rng_drawn w /\
    ((forall ring, exists p, Polygon ring = inr p) ->
     snd (create_valid_hexagons w) = w).
Proof.
  destruct (create_valid_hexagons_run w) as (lats & lons & El & Eo & ->).
  exists lats, lons. split; [exact El |]. split; [exact Eo |].
  cbn [snd]. split; [reflexivity |]. split; [reflexivity |].
  intros Hbuilds.
  assert (error_lines 0.5 (list_prod lats lons) = []) as ->.
  { unfold error_lines. induction (list_prod lats lons) as [| [lat lon] l IH];
      [reflexivity |].
    cbn [flat_map]. destruct (Hbuilds (hex_ring lat lon 0.5)) as [p ->].
    exact IH. }
  apply printed_nothing.
Qed.

(** X18: the ring that fix_hexagons.py stores always ends with its first
    vertex: it has the six corners and the closing vertex, seven in all,
    unless the first and the sixth corner already coincide, when it is
    left with six. *)
Theorem fix_ring_ends_with_first_vertex (lat lon hex_size : Q) :
  let ring := hex_ring lat lon hex_size in
  closed_ring_of_seven ring \/
  (List.length ring = 6%nat /\
   fst (hd (0, 0) ring) == fst (last ring (0, 0)) /\
   snd (hd (0, 0) ring) == snd (last ring (0, 0))).
Proof. exact (hex_ring_closed lat lon hex_size). Qed.

End ValidGrid.
(* ================================================================= *)
(** * add_lcoh_data of fix_hexagons.py *)

Section Dictionary.
Import FixHexagons Facts.

Lemma dict_get_set_same (d : list (string * Q)) (key : string) (value : Q) :
  dict_get (dict_set d key value) key = Some value.
Proof.
  induction d as [| [k v] d IH]; cbn.
  - now rewrite String.eqb_refl.
  - destruct (String.eqb k key) eqn:E; cbn; rewrite E; [reflexivity | exact IH].
Qed.

Lemma dict_get_set_other (d : list (string * Q)) (key key' : string) (value : Q) :
  String.eqb key' key = false ->
  dict_get (dict_set d key' value) key = dict_get d key.
Proof.
  intros Hne. induction d as [| [k v] d IH]; cbn.
  - now rewrite Hne.
  - destruct (String.eqb k key') eqn:E; cbn.
    + apply String.eqb_eq in E. subst k. now rewrite Hne.
    + now rewrite IH.
Qed.

Lemma clamp_between (lo hi x : Q) :
  lo <= hi -> lo <= Qmax lo (Qmin hi x) <= hi.
Proof.
  intros Hlohi. split; [apply Q.le_max_l |].
  apply Q.max_lub; [assumption | apply Q.le_min_l].
Qed.

Lemma clamp_low (lo hi x : Q) : x <= lo -> lo <= hi -> Qmax lo (Qmin hi x) <= lo.
Proof.
  intros Hx Hlohi. apply Q.max_lub; [apply Qle_refl |].
  apply Qle_trans with x; [apply Q.le_min_r | assumption].
Qed.

Lemma clamp_high (lo hi x : Q) : hi <= x -> lo <= hi -> hi <= Qmax lo (Qmin hi x).
Proof.
  intros Hx Hlohi. apply Qle_trans with (Qmin hi x); [| apply Q.le_max_r].
  apply Q.min_glb; [apply Qle_refl | assumption].
Qed.

Lemma clamp_inside (lo hi x : Q) :
  lo <= x <= hi -> Qmax lo (Qmin hi x) == x.
Proof.
  intros [Hlo Hhi]. rewrite (Q.min_r hi x) by assumption.
  now apply Q.max_r.
Qed.

(** The two clamped and rounded costs of one city. *)
Lemma clamped_costs (x y : Q) :
  y == x + 100 ->
  let pipeline := py_round (Qmax 80 (Qmin 400 x)) 2 in
  let trucking := py_round (Qmax 150 (Qmin 500 y)) 2 in
  80 <= pipeline <= 400 /\ 150 <= trucking <= 500 /\
  pipeline + 70 <= trucking.
Proof.
  intros Hy pipeline trucking.
  pose proof (clamp_between 80 400 x ltac:(discriminate)) as Hp.
  pose proof (clamp_between 150 500 y ltac:(discriminate)) as Ht.
  pose proof (py_round_2_between (Qmax 80 (Qmin 400 x)) 8000 40000) as Hp'.
  pose proof (py_round_2_between (Qmax 150 (Qmin 500 y)) 15000 50000) as Ht'.
  fold pipeline in Hp'. fold trucking in Ht'.
  cbv [inject_Z] in Hp', Ht'.
  assert (80 <= pipeline <= 400) as Rp by (split; qlra).
  assert (150 <= trucking <= 500) as Rt by (split; qlra).
  split; [exact Rp |]. split; [exact Rt |].
  destruct (Qlt_le_dec x 80) as [Hlow | Hmid].
  - pose proof (clamp_low 80 400 x ltac:(lra) ltac:(discriminate)) as Hc.
    pose proof (py_round_2_between (Qmax 80 (Qmin 400 x)) 8000 8000) as Hp80.
    fold pipeline in Hp80. cbv [inject_Z] in Hp80.
    assert (pipeline <= 80) by qlra. lra.
  - destruct (Qlt_le_dec 400 x) as [Hhigh | Hin].
    + pose proof (clamp_high 150 500 y ltac:(lra) ltac:(discriminate)) as Hc.
      pose proof (py_round_2_between (Qmax 150 (Qmin 500 y)) 50000 50000)
        as Ht500.
      fold trucking in Ht500. cbv [inject_Z] in Ht500.
      assert (500 <= trucking) by qlra. lra.
    + pose proof (clamp_inside 80 400 x ltac:(split; lra)) as Ecp.
      pose proof (clamp_inside 150 500 y ltac:(split; lra)) as Ect.
      pose proof (py_round_2_near (Qmax 80 (Qmin 400 x))) as Np.
      pose proof (py_round_2_near (Qmax 150 (Qmin 500 y))) as Nt.
      fold pipeline in Np. fold trucking in Nt. lra.
Qed.

End Dictionary.

Section AddLcohData.
Import FixHexagons Facts.
Context `{NumPy}.

(** One feature: one random number is drawn, nothing is printed, the
    cell stays the same and the ten costs are in range. *)
Lemma add_lcoh_to_feature_spec (feature : FixFeature) (w : World) :
  exists feature',
    add_lcoh_to_feature feature w
    = (inr feature',
       {| stdout := stdout w;
          rng_stream := rng_stream w;
          rng_drawn := S (rng_drawn w) |}) /\
    same_cell feature feature' /\
    lcoh_in_range (lcoh (fix_properties feature')).
Proof.
  unfold add_lcoh_to_feature, bind, np_random_random, ret. cbv zeta.
  cbv beta iota.
  eexists. split; [reflexivity |].
  split; [repeat split |].
  cbv beta iota zeta delta [fix_properties lcoh].
  unfold cities. cbn [fold_left].
  change (city_adjustment "Mumbai") with (Some (19.0760, 72.8777, -(20))).
  change (city_adjustment "Delhi") with (Some (28.7041, 77.1025, -(15))).
  change (city_adjustment "Bangalore") with (Some (12.9716, 77.5946, -(25))).
  change (city_adjustment "Chennai") with (Some (13.0827, 80.2707, -(10))).
  change (city_adjustment "Kolkata") with (Some (22.5726, 88.3639, -(5))).
  cbv beta iota.
  intros city Hcity. cbn [In] in Hcity.
  destruct Hcity as [<- | [<- | [<- | [<- | [<- | []]]]]];
    (eexists _, _;
     split;
     [ repeat (rewrite dict_get_set_other by reflexivity);
       rewrite dict_get_set_same; reflexivity
     | split;
       [ repeat (rewrite dict_get_set_other by reflexivity);
         rewrite dict_get_set_same; reflexivity
       | apply clamped_costs; ring ] ]).
Qed.

Lemma add_lcoh_loop (xs done : list FixFeature) (w : World) :
  exists fs w',
    for_each xs
      (fun done feature =>
         feature' <- add_lcoh_to_feature feature ;;
         ret (done ++ [feature']))
      done w
    = (inr (done ++ fs), w') /\
    Forall2 (fun f f' => same_cell f f' /\ lcoh_in_range (lcoh (fix_properties f')))
            xs fs /\
    rng_drawn w' = (rng_drawn w + List.length xs)%nat /\
    stdout w' = stdout w /\ rng_stream w' = rng_stream w.
Proof.
  revert done w. induction xs as [| x xs IH]; intros done w.
  - exists [], w. cbn. unfold ret. rewrite app_nil_r, Nat.add_0_r.
    repeat split. constructor.
  - cbn [for_each]. unfold bind at 1. unfold bind at 1.
    destruct (add_lcoh_to_feature_spec x w) as (x' & -> & Hsame & Hrange).
    unfold ret at 1.
    destruct (IH (done ++ [x'])
                {| stdout := stdout w; rng_stream := rng_stream w;
                   rng_drawn := S (rng_drawn w) |})
      as (fs & w' & -> & Hall & Hdrawn & Hout & Hstream).
    exists (x' :: fs), w'. cbn [rng_drawn stdout rng_stream] in *.
    rewrite <- app_assoc. cbn [app List.length].
    split; [reflexivity |]. split; [constructor; auto |].
    repeat split; try assumption. lia.
Qed.

(** X19: [add_lcoh_data] never raises and prints nothing; it returns the
    same cells in the same order (type, geometry, id, lat, lon and
    hex_size unchanged), and it draws exactly one random number per
    feature, shared by the ten costs of that feature. *)
Theorem add_lcoh_data_draws_once_per_feature (hexagons : FeatureCollection)
        (w : World) :
  exists hexagons' w',
    add_lcoh_data hexagons w = (inr hexagons', w') /\
    collection_type hexagons' = collection_type hexagons /\
    Forall2 same_cell (features hexagons) (features hexagons') /\
    rng_drawn w' = (rng_drawn w + List.length (features hexagons))%nat /\
    stdout w' = stdout w.
Proof.
  unfold add_lcoh_data. unfold bind at 1.
  destruct (add_lcoh_loop (features hexagons) [] w)
    as (fs & w' & -> & Hall & Hdrawn & Hout & _).
  unfold ret. eexists _, w'. split; [reflexivity |].
  cbn [collection_type features app]. split; [reflexivity |].
  split; [| split; assumption].
  clear - Hall. induction Hall as [| f f' xs fs [Hs _] _ IH]; constructor; auto.
Qed.

(** X20: whatever the random numbers, every feature returned by
    [add_lcoh_data] holds, for each of the five cities, a pipeline cost
    between 80 and 400 and a trucking cost between 150 and 500, the
    trucking cost at least 70 above the pipeline cost. *)
Theorem add_lcoh_data_costs_in_range (hexagons : FeatureCollection)
        (w : World) :
  exists hexagons' w',
    add_lcoh_data hexagons w = (inr hexagons', w') /\
    Forall (fun f' => lcoh_in_range (lcoh (fix_properties f')))
           (features hexagons').
Proof.
  unfold add_lcoh_data. unfold bind at 1.
  destruct (add_lcoh_loop (features hexagons) [] w)
    as (fs & w' & -> & Hall & _).
  unfold ret. eexists _, w'. split; [reflexivity |].
  cbn [features app].
  clear - Hall. induction Hall as [| f f' xs fs [_ Hr] _ IH]; constructor; auto.
Qed.

End AddLcohData.
(* ================================================================= *)
(** * The further properties on the reference kernels *)

Section ReferenceInstances.
Import Reference Scorer Generator FixHexagons Facts.

Lemma ref_sqrt_zero (x : Q) : x == 0 -> ref_sqrt x == 0.
Proof.
  intros E. unfold ref_sqrt.
  destruct (Qle_bool x 0) eqn:Hle; [reflexivity |].
  assert (Qle_bool x 0 = true) as Hle'
      by (apply Qle_bool_iff; rewrite E; apply Qle_refl).
  congruence.
Qed.

Lemma transport_cost_zero_at_centers_witness :
  (forall lat lon, 0 <= calculate_transport_cost lat lon) /\
  (forall c, In c demand_centers ->
        calculate_transport_cost (fst (fst c)) (snd (fst c)) == 0).
Proof.
  exact (@transport_cost_zero_at_centers ref_numpy ref_sqrt_nonneg
           ref_sqrt_zero).
Defined.

Lemma suitability_score_ignores_cost_witness :
  let hexagon := hexagon_data 0 6 68 (50 / 111.0) in
  97 < unrounded_total_lcoh (properties hexagon) /\
  suitability_score (calculate_lcoh_for_hexagon hexagon)
  = py_round (40 * 0.6
              + (wind_potential (properties hexagon) / 7.0
                 + solar_potential (properties hexagon) / 6.5) * 50 * 0.4) 1.
Proof.
  cbv zeta.
  apply (@suitability_score_ignores_cost ref_numpy ref_sqrt_nonneg
           (hexagon_data 0 6 68 (50 / 111.0))).
  apply elevation_estimate_nonneg.
Defined.

Lemma generated_cells_are_moderately_or_less_suitable_witness :
  let score :=
    suitability_score
      (calculate_lcoh_for_hexagon (hexagon_data 0 6 68 (50 / 111.0))) in
  47.2 <= score <= 77.5 /\
  (categorize_suitability score = "Moderately Suitable"%string \/
   categorize_suitability score = "Less Suitable"%string).
Proof.
  apply (@generated_cells_are_moderately_or_less_suitable ref_numpy
           ref_sqrt_nonneg 0%Z 6 68 (50 / 111.0)).
  split; discriminate.
Defined.

Lemma very_high_density_has_top_infrastructure_witness :
  calculate_infrastructure_score 19.0760 72.8777 = 90%Z /\
  calculate_infrastructure_cost (calculate_infrastructure_score 19.0760 72.8777)
  = 0.3.
Proof.
  apply (@very_high_density_has_top_infrastructure ref_numpy 19.0760 72.8777).
  reflexivity.
Defined.

Lemma cell_centers_within_extended_box_witness :
  let f := hexagon_data 0 6 68 (50 / 111.0) in
  6 <= center_lat (properties f) < 37 + 2 * (50 / 111.0) /\
  68 <= center_lon (properties f)
  < 97 + 2 * (50 / (111.0 * np_cos (np_radians ((6.0 + 37.0) / 2)))).
Proof.
  cbv zeta.
  destruct (run_starts_at_south_west_corner 50 (world_with 0)) as [rest R];
    [reflexivity | exact ref_cos_mid_latitude_positive |].
  apply (cell_centers_within_extended_box 50 (world_with 0) _
           (hexagon_data 0 6 68 (50 / 111.0))
           ltac:(discriminate) ref_cos_mid_latitude_positive R).
  left. reflexivity.
Defined.

Lemma positive_resolution_run_witness :
  exists hexagons,
    create_india_hexagons 50 (world_with 0)
    = (inr hexagons,
       {| stdout := stdout (world_with 0)
            ++ ["Creating India hexagon grid..."%string;
                ("Created " ++ str_of_nat (List.length hexagons)
                   ++ " hexagons covering India")%string];
          rng_stream := rng_stream (world_with 0);
          rng_drawn := rng_drawn (world_with 0) |}) /\
    (4 <= List.length hexagons)%nat.
Proof.
  apply (positive_resolution_run 50 (world_with 0));
    [split; discriminate | exact ref_cos_mid_latitude_positive].
Defined.


Lemma create_valid_hexagons_log_witness :
  snd (@create_valid_hexagons ref_numpy reject_all ref_format (world_with 0))
  = world_with 0.
Proof.
  destruct (@create_valid_hexagons_log ref_numpy reject_all ref_format
              (world_with 0))
    as (lats & lons & _ & _ & _ & _ & Hquiet).
  apply Hquiet. intros ring. exists ring. reflexivity.
Defined.

End ReferenceInstances.
